(** * Vyaamik Samadhaan ML service: a shallow embedding of
      [ml-service/app/utils.py], [ml-service/app/main.py] and
      [ml-service/train_ranker.py], with the properties of its specification.

    Python floats are IEEE 754 binary64 numbers; they are embedded as
    [spec_float] with the operations of the Standard Library's executable
    specification of binary64 arithmetic.  Exceptions are values, module
    globals are fields of an explicit process state, and everything that lives
    outside the repository (the file system, the clock, onnxruntime, the
    sentence encoder, numpy's tensor construction, pandas' CSV reader, the
    training libraries) is an oracle of a [World] record. *)

From Stdlib Require Import ZArith List Bool String Ascii Lia.
From Stdlib Require Import DecimalString.
From Stdlib Require Import Floats.SpecFloat.
Import ListNotations.

Set Implicit Arguments.
Local Open Scope string_scope.
Local Open Scope list_scope.

(** ** Python exceptions and results *)

Module Py.

(** An exception raised by library code: its class name and [str(e)]. *)
Record PyError := mkError { exc_type : string; exc_str : string }.

(** The exceptions the service distinguishes: FastAPI's [HTTPException]
    and every other subclass of [Exception]. *)
Inductive exn :=
| HTTPException (status_code : Z) (detail : string)
| Other (e : PyError).

Inductive result (A : Type) :=
| Return (a : A)
| Raise (e : exn).
Arguments Return {A} a.
Arguments Raise {A} e.

(** What a library call gives back: a value or a library exception. *)
Definition lib (A : Type) := (PyError + A)%type.

Definition of_lib {A} (r : lib A) : result A :=
  match r with
  | inl e => Raise (Other e)
  | inr a => Return a
  end.

Definition ValueError (msg : string) : exn := Other (mkError "ValueError" msg).
Definition IndexError (msg : string) : exn := Other (mkError "IndexError" msg).
Definition ValidationError (msg : string) : exn :=
  Other (mkError "ValidationError" msg).

(** [str(n)] for a natural number. *)
Definition str_nat (n : nat) : string :=
  NilEmpty.string_of_uint (Nat.to_uint n).

(** [repr] of a list of plain strings, as an f-string prints it:
    [['label', 'f0_sim']]. *)
Definition repr_str (s : string) : string := "'" ++ s ++ "'".

Definition repr_list (l : list string) : string :=
  "[" ++ String.concat ", " (map repr_str l) ++ "]".

(** Computations over a state [S] that may raise.  The state reached when
    an exception is raised is kept: assignments made before a [raise]
    are visible to the handler and to later calls. *)
Definition M (S A : Type) : Type := S -> result A * S.

Definition ret {S A} (a : A) : M S A := fun s => (Return a, s).

Definition raise {S A} (e : exn) : M S A := fun s => (Raise e, s).

Definition bind {S A B} (m : M S A) (k : A -> M S B) : M S B :=
  fun s =>
    match m s with
    | (Return a, s') => k a s'
    | (Raise e, s') => (Raise e, s')
    end.

Definition lift {S A} (r : result A) : M S A := fun s => (r, s).

Definition get {S} : M S S := fun s => (Return s, s).

Definition modify {S} (f : S -> S) : M S unit := fun s => (Return tt, f s).

(** [try: body  except ...: handler e] *)
Definition try_except {S A} (body : M S A) (handler : exn -> M S A) : M S A :=
  fun s =>
    match body s with
    | (Return a, s') => (Return a, s')
    | (Raise e, s') => handler e s'
    end.

(** [acc = init; for x in xs: acc = body acc x] *)
Fixpoint for_each {S A B} (xs : list A) (body : B -> A -> M S B) (acc : B)
  : M S B :=
  match xs with
  | [] => ret acc
  | x :: xs' => bind (body acc x) (for_each xs' body)
  end.

End Py.

Import Py.

Declare Scope py_scope.
Delimit Scope py_scope with py.
Notation "x <- m ;; k" := (bind m (fun x => k))
  (at level 61, m at next level, right associativity) : py_scope.
Notation "m ;;; k" := (bind m (fun _ => k))
  (at level 61, right associativity) : py_scope.
Local Open Scope py_scope.

(** ** IEEE 754 binary64 *)

Module F64.

Definition float := spec_float.

Definition prec : Z := 53.
Definition emax : Z := 1024.

Definition add : float -> float -> float := SFadd prec emax.
Definition sub : float -> float -> float := SFsub prec emax.
Definition mul : float -> float -> float := SFmul prec emax.
Definition div : float -> float -> float := SFdiv prec emax.
Definition sqrt : float -> float := SFsqrt prec emax.
Definition abs : float -> float := SFabs.
Definition leb : float -> float -> bool := SFleb.
(** Python's [==] on floats: NaN differs from itself, the two zeros are equal. *)
Definition eqb : float -> float -> bool := SFeqb.

(** [float(z)] for an integer of magnitude below 2^53. *)
Definition of_Z (z : Z) : float := binary_normalize prec emax z 0 false.

(** A decimal literal [n/d] with [n] and [d] exact in binary64: the division
    is correctly rounded, hence the literal's value, the binary64 number
    closest to the decimal. *)
Definition lit (n d : Z) : float := div (of_Z n) (of_Z d).

Definition zero : float := S754_zero false.
Definition nan : float := S754_nan.

Definition is_nan (x : float) : bool :=
  match x with S754_nan => true | _ => false end.

Definition is_zero (x : float) : bool :=
  match x with S754_zero _ => true | _ => false end.

(** C's [c && isfinite(c)]: a finite number other than zero. *)
Definition is_finite_nonzero (x : float) : bool :=
  match x with S754_finite _ _ _ => true | _ => false end.

End F64.

(** ** The world outside the repository, and the state of one server process *)

Module Env.

(** The pretrained sentence encoder; [model_name] is [None] when the object
    has no such attribute ([hasattr] is false). *)
Record SentenceTransformer := { model_name : option string }.

(** A batch tensor as numpy hands it to the inference runtime. *)
Definition ndarray := list (list F64.float).

(** An onnxruntime session: the names of its declared inputs, and [run],
    which gives the output tensors (each already flattened to a list). *)
Record InferenceSession := {
  get_inputs : list string;
  run : string -> ndarray -> lib (list (list F64.float))
}.

Record World := {
  (** the [n]-th reading of [int(time.time() * 1000)] in this process *)
  now_ms : nat -> Z;
  (** [SentenceTransformer(name)] *)
  new_SentenceTransformer : string -> lib SentenceTransformer;
  (** [import onnxruntime as ort] *)
  import_onnxruntime : lib unit;
  (** [os.path.exists(path)] *)
  os_path_exists : string -> bool;
  (** [ort.InferenceSession(path)] *)
  new_InferenceSession : string -> lib InferenceSession;
  (** [np.array(rows, dtype=np.float32)] *)
  np_array_float32 : list (list F64.float) -> lib ndarray
}.

(** What the process does to the outside, in order. *)
Inductive Event :=
| Print (line : string)
| PrintLoadTime                      (* "Model loaded in {load_time:.2f}ms" *)
| Import (module : string)
| PathExists (path : string)
| Construct (class arg : string).

(** The module globals of [utils.py] and [main.py], the number of clock
    readings taken so far and the trace of events. *)
Record Process := {
  _model : option SentenceTransformer;
  _ranker_model : option string;
  _ranker_session : option InferenceSession;
  clock_reads : nat;
  trace : list Event
}.

(** A freshly started interpreter: every cache is [None]. *)
Definition fresh : Process :=
  {| _model := None; _ranker_model := None; _ranker_session := None;
     clock_reads := 0; trace := [] |}.

Definition Proc (A : Type) : Type := M Process A.

Definition set_model (v : option SentenceTransformer) : Proc unit :=
  modify (fun p =>
    {| _model := v; _ranker_model := _ranker_model p;
       _ranker_session := _ranker_session p;
       clock_reads := clock_reads p; trace := trace p |}).

Definition set_ranker_model (v : option string) : Proc unit :=
  modify (fun p =>
    {| _model := _model p; _ranker_model := v;
       _ranker_session := _ranker_session p;
       clock_reads := clock_reads p; trace := trace p |}).

Definition set_ranker_session (v : option InferenceSession) : Proc unit :=
  modify (fun p =>
    {| _model := _model p; _ranker_model := _ranker_model p;
       _ranker_session := v;
       clock_reads := clock_reads p; trace := trace p |}).

Definition emit (e : Event) : Proc unit :=
  modify (fun p =>
    {| _model := _model p; _ranker_model := _ranker_model p;
       _ranker_session := _ranker_session p;
       clock_reads := clock_reads p; trace := trace p ++ [e] |}).

Definition print (line : string) : Proc unit := emit (Print line).

Definition read_clock (w : World) : Proc Z :=
  fun p =>
    (Return (now_ms w (clock_reads p)),
     {| _model := _model p; _ranker_model := _ranker_model p;
        _ranker_session := _ranker_session p;
        clock_reads := S (clock_reads p); trace := trace p |}).

(** [str(e)] *)
Definition str (e : exn) : string :=
  match e with
  | HTTPException status detail =>
      NilEmpty.string_of_int (Z.to_int status) ++ ": " ++ detail
  | Other err => exc_str err
  end.

End Env.

Import Env.

(** ** numpy and the built-in [sum], as the service uses them *)

Module np.

(** The sum of products that an inner product accumulates, over any
    arithmetic: [zero + a0*b0 + a1*b1 + ...], left to right. *)
Section Inner.
Variable R : Type.
Variable zero : R.
Variables add mul : R -> R -> R.

Definition inner (a b : list R) : R :=
  fold_left (fun acc xy => add acc (mul (fst xy) (snd xy))) (combine a b) zero.


End Inner.

(** The binary64 inner product of two float64 arrays of one length, the
    products accumulated in the order of the elements.  (numpy leaves the
    order of the additions to its BLAS; the sample values computed below are
    exact, hence the same in every order.) *)
Definition inner64 : list F64.float -> list F64.float -> F64.float :=
  inner F64.zero F64.add F64.mul.

Definition shape_error (n m : nat) : exn :=
  ValueError ("shapes (" ++ str_nat n ++ ",) and (" ++ str_nat m
              ++ ",) not aligned: " ++ str_nat n ++ " (dim 0) != "
              ++ str_nat m ++ " (dim 0)").

(** [np.dot(a, b)] on one-dimensional float64 arrays: a [ValueError] when
    the lengths differ. *)
Definition dot (a b : list F64.float) : result F64.float :=
  if Nat.eqb (List.length a) (List.length b) then Return (inner64 a b)
  else Raise (shape_error (List.length a) (List.length b)).

(** [np.linalg.norm(a)] on a one-dimensional array: [sqrt(a.dot(a))]. *)
Definition linalg_norm (a : list F64.float) : F64.float :=
  F64.sqrt (inner64 a a).

(** [a / s]: every element divided by the scalar; division by zero gives
    an infinity or NaN, not an exception. *)
Definition divide (a : list F64.float) (s : F64.float) : list F64.float :=
  map (fun x => F64.div x s) a.

End np.

Module builtins.

(** The float loop of the built-in [sum] (CPython 3.12 and later):
    Neumaier's compensated summation, the compensation [c] being added at
    the end when it is finite and not zero. *)
Fixpoint sum_floats (f_result c : F64.float) (items : list F64.float)
  : F64.float :=
  match items with
  | [] => if F64.is_finite_nonzero c then F64.add f_result c else f_result
  | x :: rest =>
      let t := F64.add f_result x in
      let c' :=
        if F64.leb (F64.abs x) (F64.abs f_result)
        then F64.add c (F64.add (F64.sub f_result t) x)
        else F64.add c (F64.add (F64.sub x t) f_result) in
      sum_floats t c' rest
  end.

(** [sum(items)] over floats.  The start value is the integer [0]; the first
    item is added to it with an ordinary [+], the rest by the float loop.
    (The sum of no item is the integer 0, [0.0] as a float.) *)
Definition sum (items : list F64.float) : F64.float :=
  match items with
  | [] => F64.zero
  | x :: rest => sum_floats (F64.add (F64.of_Z 0) x) F64.zero rest
  end.

(** The same sum accumulated with plain [+] from left to right, as
    CPython 3.11 and earlier compute it. *)
Definition sum_left_to_right (items : list F64.float) : F64.float :=
  fold_left F64.add items (F64.of_Z 0).

End builtins.

(** ** app/utils.py *)

Module utils.

Definition default_model_name : string :=
  "paraphrase-multilingual-MiniLM-L12-v2".

Definition get_model (w : World) : Proc SentenceTransformer :=
  p <- get ;;
  (match _model p with
   | None =>
       print "Loading sentence transformer model..." ;;;
       emit (Construct "SentenceTransformer" default_model_name) ;;;
       m <- lift (of_lib (new_SentenceTransformer w default_model_name)) ;;
       set_model (Some m) ;;;
       emit PrintLoadTime ;;;
       ret m
   | Some m => ret m
   end).

Definition cosine_similarity (a b : list F64.float) : result F64.float :=
  let a_np := a in
  let b_np := b in
  let a_norm := np.divide a_np (np.linalg_norm a_np) in
  let b_norm := np.divide b_np (np.linalg_norm b_np) in
  np.dot a_norm b_norm.

Definition dot_product (a b : list F64.float) : result F64.float :=
  let a_np := a in
  let b_np := b in
  np.dot a_np b_np.

Definition time_ms (w : World) : Proc Z := read_clock w.

End utils.

(** ** app/main.py *)

Module main.

Definition model_path : string := "./models/ranker.onnx".

(** [get_ranker]: the two globals are assigned on the first call only. *)
Definition get_ranker (w : World) : Proc (option string * option InferenceSession) :=
  p <- get ;;
  (match _ranker_model p with
   | None =>
       try_except
         (emit (Import "onnxruntime") ;;;
          lift (of_lib (import_onnxruntime w)) ;;;
          emit (PathExists model_path) ;;;
          if os_path_exists w model_path then
            print ("Loading ONNX ranker from: " ++ model_path) ;;;
            emit (Construct "InferenceSession" model_path) ;;;
            session <- lift (of_lib (new_InferenceSession w model_path)) ;;
            set_ranker_session (Some session) ;;;
            set_ranker_model (Some "onnx") ;;;
            print "âœ… ONNX ranker loaded successfully"
          else
            print ("ONNX model not found at " ++ model_path ++ ", using fallback") ;;;
            set_ranker_model (Some "fallback"))
         (fun e =>
            print ("Failed to load ONNX ranker: " ++ str e ++ ", using fallback") ;;;
            set_ranker_model (Some "fallback"))
   | Some _ => ret tt
   end) ;;;
  p' <- get ;;
  ret (_ranker_model p', _ranker_session p').

(** *** Request and response models *)

Record VectorPair := { user_vec : list F64.float; item_vec : list F64.float }.

Record ScoreRequest := { pairs : list VectorPair; method : string }.

Record RankRequest := { features : list (list F64.float) }.

(** The constraints of the request models, checked before a handler runs:
    [min_items=1], [max_items=512], [Literal["cosine", "dot"]]. *)
Definition valid_ScoreRequest (r : ScoreRequest) : bool :=
  Nat.leb 1 (List.length (pairs r)) && Nat.leb (List.length (pairs r)) 512
  && (String.eqb (method r) "cosine" || String.eqb (method r) "dot").

Definition valid_RankRequest (r : RankRequest) : bool :=
  Nat.leb 1 (List.length (features r)) && Nat.leb (List.length (features r)) 512.

Module ScoreResponse.
Record t := { scores : list F64.float; took_ms : Z }.
End ScoreResponse.

Module RankResponse.
Record t := { scores : list F64.float; model : string; took_ms : Z }.
End RankResponse.

Module HealthResponse.
Record t := { ok : bool; model : string; ready : bool }.
End HealthResponse.

Module RankerHealthResponse.
Record t := { ok : bool; model : string; dimsExpected : Z }.
End RankerHealthResponse.

(** A response field declared [str] refuses [None]. *)
Definition str_field {S} (v : option string) : M S string :=
  match v with
  | Some s => ret s
  | None => raise (ValidationError "none is not an allowed value")
  end.

(** [xs[0]] *)
Definition first {S A} (xs : list A) : M S A :=
  match xs with
  | x :: _ => ret x
  | [] => raise (IndexError "list index out of range")
  end.

(** *** GET /health *)
Definition health_check (w : World) : Proc HealthResponse.t :=
  try_except
    (model <- utils.get_model w ;;
     ret {| HealthResponse.ok := true;
            HealthResponse.model :=
              match model_name model with
              | Some name => name
              | None => utils.default_model_name
              end;
            HealthResponse.ready := true |})
    (fun e =>
       ret {| HealthResponse.ok := false;
              HealthResponse.model := "error";
              HealthResponse.ready := false |}).

(** *** POST /score *)

(** The body of the loop over [request.pairs]. *)
Definition score_pair (method : string) (scores : list F64.float)
    (pair : VectorPair) : Proc (list F64.float) :=
  if negb (Nat.eqb (List.length (user_vec pair)) (List.length (item_vec pair)))
  then raise (HTTPException 400 "Vector dimensions must match")
  else
    score <-
      (if String.eqb method "cosine"
       then lift (utils.cosine_similarity (user_vec pair) (item_vec pair))
       else if String.eqb method "dot"
       then lift (utils.dot_product (user_vec pair) (item_vec pair))
       else raise (HTTPException 400 "Invalid method. Use 'cosine' or 'dot'")) ;;
    ret (scores ++ [score]).

Definition score_pairs (w : World) (request : ScoreRequest)
  : Proc ScoreResponse.t :=
  start_time <- utils.time_ms w ;;
  try_except
    (scores <- for_each (pairs request) (score_pair (method request)) [] ;;
     now <- utils.time_ms w ;;
     ret {| ScoreResponse.scores := scores;
            ScoreResponse.took_ms := (now - start_time)%Z |})
    (fun e =>
       match e with
       | HTTPException _ _ => raise e
       | Other _ => raise (HTTPException 500 ("Scoring failed: " ++ str e))
       end).

(** *** POST /rank *)

(** The documented fallback weights: similarity, recency, trust, geo. *)
Definition weights : list F64.float :=
  [F64.lit 10 10; F64.lit 2 10; F64.lit 2 10; F64.lit 2 10].

(** [sum(w * f for w, f in zip(weights, features))] *)
Definition linear_combination (features : list F64.float) : F64.float :=
  builtins.sum (map (fun wf => F64.mul (fst wf) (snd wf)) (combine weights features)).

(** The body of the fallback loop over [request.features]. *)
Definition fallback_row (scores : list F64.float) (features : list F64.float)
  : Proc (list F64.float) :=
  if negb (Nat.eqb (List.length features) 4)
  then raise (HTTPException 400 "Expected 4 features per candidate")
  else
    let score := linear_combination features in
    ret (scores ++ [score]).

(** The ONNX branch. *)
Definition onnx_scores (w : World) (session : InferenceSession)
    (request : RankRequest) : Proc (list F64.float) :=
  features_array <- lift (of_lib (np_array_float32 w (features request))) ;;
  input_name <- first (get_inputs session) ;;
  outputs <- lift (of_lib (run session input_name features_array)) ;;
  first outputs.

Definition is_onnx (model_type : option string) : bool :=
  match model_type with
  | Some k => String.eqb k "onnx"
  | None => false
  end.

Definition rank_candidates (w : World) (request : RankRequest)
  : Proc RankResponse.t :=
  start_time <- utils.time_ms w ;;
  try_except
    (r <- get_ranker w ;;
     let model_type := fst r in
     let session := snd r in
     scores <-
       (match is_onnx model_type, session with
        | true, Some sess => onnx_scores w sess request
        | _, _ => for_each (features request) fallback_row []
        end) ;;
     now <- utils.time_ms w ;;
     model <- str_field model_type ;;
     ret {| RankResponse.scores := scores;
            RankResponse.model := model;
            RankResponse.took_ms := (now - start_time)%Z |})
    (fun e =>
       match e with
       | HTTPException _ _ => raise e
       | Other _ => raise (HTTPException 500 ("Ranking failed: " ++ str e))
       end).

(** *** GET /ranker/health *)
Definition ranker_health (w : World) : Proc RankerHealthResponse.t :=
  try_except
    (r <- get_ranker w ;;
     model <- str_field (fst r) ;;
     ret {| RankerHealthResponse.ok := true;
            RankerHealthResponse.model := model;
            RankerHealthResponse.dimsExpected := 4 |})
    (fun e =>
       ret {| RankerHealthResponse.ok := false;
              RankerHealthResponse.model := "error";
              RankerHealthResponse.dimsExpected := 4 |}).

(** *** POST /embed *)

Record EmbedRequest := { texts : list string; normalize : bool }.

(** [min_items=1], [max_items=512] *)
Definition valid_EmbedRequest (r : EmbedRequest) : bool :=
  Nat.leb 1 (List.length (texts r)) && Nat.leb (List.length (texts r)) 512.

Module EmbedResponse.
Record t := {
  vectors : list (list F64.float);
  dims : Z;
  model : string;
  took_ms : Z
}.
End EmbedResponse.

(** [model.encode(texts, normalize_embeddings=normalize,
    convert_to_numpy=True).tolist()]: the encoder is a library, its answer an
    oracle. *)
Definition Encode : Type :=
  SentenceTransformer -> list string -> bool -> lib (list (list F64.float)).

Definition embed_texts (w : World) (encode : Encode) (request : EmbedRequest)
  : Proc EmbedResponse.t :=
  start_time <- utils.time_ms w ;;
  try_except
    (model <- utils.get_model w ;;
     vectors <- lift (of_lib (encode model (texts request) (normalize request))) ;;
     let dims :=
       match vectors with
       | v :: _ => Z.of_nat (List.length v)
       | [] => 0%Z
       end in
     now <- utils.time_ms w ;;
     ret {| EmbedResponse.vectors := vectors;
            EmbedResponse.dims := dims;
            EmbedResponse.model :=
              match model_name model with
              | Some name => name
              | None => utils.default_model_name
              end;
            EmbedResponse.took_ms := (now - start_time)%Z |})
    (fun e =>
       raise (HTTPException 500 ("Embedding generation failed: " ++ str e))).

End main.

(** ** train_ranker.py *)

Module train_ranker.

(** A table read from a CSV file: the header and the rows, one cell per
    column; a missing cell is NaN, as pandas reads it. *)
Record DataFrame := {
  columns : list string;
  rows : list (list F64.float)
}.

Record Args := {
  csv : string;
  out : string;
  test_size : F64.float;
  random_state : Z
}.

(** What the script does to the outside, in order.  Lines whose text
    formats numbers carry the numbers instead of the text. *)
Inductive Event :=
| Print (line : string)
| PrintLoaded (samples : nat)              (* "Loaded {len(df)} samples" *)
| PrintPositive (labels : list F64.float)  (* sum and mean of the labels *)
| PrintShape (n m : nat)                   (* "Feature matrix shape: (n, m)" *)
| PrintRange (col : string) (values : list F64.float) (* min and max of a column *)
| ReadCsv (path : string)
| TrainModel
| ExportOnnx (path : string).

Definition Script (A : Type) : Type := M (list Event) A.

Definition emit (e : Event) : Script unit := modify (fun t => t ++ [e]).

Definition print (line : string) : Script unit := emit (Print line).

Definition required_cols : list string :=
  ["label"; "f0_sim"; "f1_recency"; "f2_trust"; "f3_geo"].

Definition feature_cols : list string :=
  ["f0_sim"; "f1_recency"; "f2_trust"; "f3_geo"].

(** [col in df.columns] *)
Definition has_column (df : DataFrame) (col : string) : bool :=
  existsb (String.eqb col) (columns df).

Fixpoint index_of (col : string) (cols : list string) : option nat :=
  match cols with
  | [] => None
  | c :: cols' =>
      if String.eqb c col then Some 0%nat
      else option_map S (index_of col cols')
  end.

(** [df[col]]: a [KeyError] when there is no such column. *)
Definition column (df : DataFrame) (col : string) : Script (list F64.float) :=
  match index_of col (columns df) with
  | Some i => ret (map (fun row => nth i row F64.nan) (rows df))
  | None => raise (Other (mkError "KeyError" (repr_str col)))
  end.

(** [df.isnull().any().any()] *)
Definition isnull_any (df : DataFrame) : bool :=
  existsb (existsb F64.is_nan) (rows df).

(** [df.fillna(0)] *)
Definition fillna0 (df : DataFrame) : DataFrame :=
  {| columns := columns df;
     rows := map (map (fun x => if F64.is_nan x then F64.zero else x)) (rows df) |}.

Definition missing_cols (df : DataFrame) : list string :=
  filter (fun col => negb (has_column df col)) required_cols.

Section Pipeline.

(** The trained LightGBM model. *)
Variable Booster : Type.

(** The libraries of the script: pandas' reader, and the train and export
    steps, which wrap scikit-learn, LightGBM and onnxmltools. *)
Record World := {
  read_csv : string -> lib DataFrame;
  lgb_train : list (list F64.float) -> list F64.float -> F64.float -> Z
              -> lib Booster;
  convert_and_save : Booster -> string -> lib unit
}.

Variable w : World.

Definition load_data (csv_path : string) : Script DataFrame :=
  print ("Loading data from: " ++ csv_path) ;;;
  emit (ReadCsv csv_path) ;;;
  df <- lift (of_lib (read_csv w csv_path)) ;;
  (match missing_cols df with
   | [] => ret tt
   | _ :: _ =>
       raise (ValueError ("Missing required columns: "
                          ++ repr_list (missing_cols df)))
   end) ;;;
  emit (PrintLoaded (List.length (rows df))) ;;;
  labels <- column df "label" ;;
  emit (PrintPositive labels) ;;;
  if isnull_any df then
    print "Warning: Found missing values, filling with 0" ;;;
    ret (fillna0 df)
  else ret df.

(** One line of the feature ranges: [min] of no value raises. *)
Definition print_range (X : list (list F64.float)) (i : nat) (col : string)
  : Script nat :=
  match X with
  | [] => raise (ValueError
      "zero-size array to reduction operation minimum which has no identity")
  | _ :: _ =>
      emit (PrintRange col (map (fun row => nth i row F64.nan) X)) ;;;
      ret (S i)
  end.

Definition prepare_features (df : DataFrame)
  : Script (list (list F64.float) * list F64.float) :=
  cols <- for_each feature_cols
            (fun acc col => c <- column df col ;; ret (acc ++ [c])) [] ;;
  let X := map (fun r => map (fun c => nth r c F64.nan) cols)
               (seq 0 (List.length (rows df))) in
  y <- column df "label" ;;
  emit (PrintShape (List.length X) (List.length feature_cols)) ;;;
  print "Feature ranges:" ;;;
  for_each feature_cols (print_range X) 0%nat ;;;
  ret (X, y).

Definition train_model (X : list (list F64.float)) (y : list F64.float)
    (test_size : F64.float) (random_state : Z) : Script Booster :=
  emit TrainModel ;;;
  lift (of_lib (lgb_train w X y test_size random_state)).

Definition export_to_onnx (model : Booster) (output_path : string)
  : Script unit :=
  emit (ExportOnnx output_path) ;;;
  lift (of_lib (convert_and_save w model output_path)).

Definition newline : string := String (ascii_of_nat 10) EmptyString.

Definition training_completed : string :=
  newline ++ "üéâ Training completed successfully!".

Definition training_failed (e : string) : string :=
  "‚ùå Training failed: " ++ e.

(** [main]: the exit status the script hands to [exit]. *)
Definition main (args : Args) : Script Z :=
  try_except
    (df <- load_data (csv args) ;;
     Xy <- prepare_features df ;;
     model <- train_model (fst Xy) (snd Xy) (test_size args) (random_state args) ;;
     export_to_onnx model (out args) ;;;
     print (newline ++ "üéâ Training completed successfully!") ;;;
     print ("Model saved to: " ++ out args) ;;;
     ret 0%Z)
    (fun e =>
       print (training_failed (str e)) ;;;
       ret 1%Z).

(** [exit(main())]: the exit status of the process and what it did. *)
Definition run (args : Args) : Z * list Event :=
  match main args [] with
  | (Return status, t) => (status, t)
  | (Raise _, t) => (1%Z, t)
  end.

End Pipeline.

(** *** [export_to_onnx], step by step

    In [Pipeline] the directory creation, the conversion and the writing of
    [export_to_onnx] are the one oracle [convert_and_save] and its printing is
    left out.  Here is its body with the steps apart. *)

Definition is_slash (c : ascii) : bool := Ascii.eqb c "/"%char.

Fixpoint has_slash (p : string) : bool :=
  match p with
  | EmptyString => false
  | String c rest => is_slash c || has_slash rest
  end.

(** [p[:p.rfind('/') + 1]] *)
Fixpoint upto_last_slash (p : string) : string :=
  match p with
  | EmptyString => EmptyString
  | String c rest =>
      if has_slash rest then String c (upto_last_slash rest)
      else if is_slash c then String c EmptyString
      else EmptyString
  end.

Fixpoint all_slashes (p : string) : bool :=
  match p with
  | EmptyString => true
  | String c rest => is_slash c && all_slashes rest
  end.

(** [head.rstrip('/')] *)
Fixpoint rstrip_slashes (p : string) : string :=
  match p with
  | EmptyString => EmptyString
  | String c rest =>
      match rstrip_slashes rest with
      | EmptyString => if is_slash c then EmptyString else String c EmptyString
      | r => String c r
      end
  end.

(** [os.path.dirname] of [posixpath]. *)
Definition dirname (p : string) : string :=
  let head := upto_last_slash p in
  match head with
  | EmptyString => head
  | String _ _ => if all_slashes head then head else rstrip_slashes head
  end.

Section ExportSteps.

Variable Booster : Type.
(** The converted model. *)
Variable OnnxModel : Type.

(** The session that checks the written file: the printed forms of the
    shapes of its first input and output, when there are such. *)
Record CheckSession := {
  input_shape : lib string;
  output_shape : lib string
}.

Record ExportLibs := {
  (** [os.makedirs(path, exist_ok=True)] *)
  makedirs : string -> lib unit;
  (** [convert_lightgbm(model, initial_types=[('input', [None, 4])],
      target_opset=11)] *)
  convert_lightgbm : Booster -> lib OnnxModel;
  (** [open(path, 'wb')] and the writing of [SerializeToString()] *)
  write_model : string -> OnnxModel -> lib unit;
  (** [import onnxruntime] and [ort.InferenceSession(path)] *)
  check_session : string -> lib CheckSession
}.

Variable libs : ExportLibs.

(** What [export_to_onnx] prints. *)
Definition Out (A : Type) : Type := M (list string) A.

Definition say (line : string) : Out unit := modify (fun t => t ++ [line]).

Definition model_saved (output_path : string) : string :=
  "‚úÖ ONNX model saved to: " ++ output_path.

Definition verification_successful : string :=
  "‚úÖ ONNX model verification successful".

Definition verification_failed (e : string) : string :=
  "‚ö†Ô∏è  ONNX model verification failed: " ++ e.

Definition exporting (output_path : string) : string :=
  String (ascii_of_nat 10) EmptyString
  ++ "Exporting model to ONNX: " ++ output_path.

Definition export_to_onnx_steps (model : Booster) (output_path : string)
  : Out unit :=
  say (exporting output_path) ;;;
  lift (of_lib (makedirs libs (dirname output_path))) ;;;
  onnx_model <- lift (of_lib (convert_lightgbm libs model)) ;;
  lift (of_lib (write_model libs output_path onnx_model)) ;;;
  say (model_saved output_path) ;;;
  try_except
    (session <- lift (of_lib (check_session libs output_path)) ;;
     say verification_successful ;;;
     i <- lift (of_lib (input_shape session)) ;;
     say ("   Input shape: " ++ i) ;;;
     o <- lift (of_lib (output_shape session)) ;;
     say ("   Output shape: " ++ o))
    (fun e => say (verification_failed (str e))).

End ExportSteps.

End train_ranker.

(** ** Vocabulary of the specification, and sample worlds *)

Module Spec.


(** The two vectors of a pair have one length. *)
Definition same_length (pair : main.VectorPair) : Prop :=
  List.length (main.user_vec pair) = List.length (main.item_vec pair).

(** The request shape's constraint on [method]. *)
Definition known_method (method : string) : Prop :=
  method = "cosine" \/ method = "dot".

(** The function the specification assigns to a method. *)
Definition similarity (method : string) (pair : main.VectorPair)
  : result F64.float :=
  if String.eqb method "cosine"
  then utils.cosine_similarity (main.user_vec pair) (main.item_vec pair)
  else utils.dot_product (main.user_vec pair) (main.item_vec pair).




(** A run of the process that calls [get_ranker] once per element of [ws],
    each call seeing the world as it is at that moment. *)
Fixpoint get_ranker_calls (ws : list World) (p : Process)
  : list (result (option string * option InferenceSession)) * Process :=
  match ws with
  | [] => ([], p)
  | w :: ws' =>
      let (r, p') := main.get_ranker w p in
      let (rs, p'') := get_ranker_calls ws' p' in
      (r :: rs, p'')
  end.

(** The requests a process serves, each in the world of its moment. *)
Inductive Op :=
| Health
| Score (request : main.ScoreRequest)
| Rank (request : main.RankRequest)
| RankerHealth
| GetRanker.

(** The process after serving one request. *)
Definition serve (w : World) (op : Op) (p : Process) : Process :=
  match op with
  | Health => snd (main.health_check w p)
  | Score request => snd (main.score_pairs w request p)
  | Rank request => snd (main.rank_candidates w request p)
  | RankerHealth => snd (main.ranker_health w p)
  | GetRanker => snd (main.get_ranker w p)
  end.

(** The process after serving a sequence of requests. *)
Definition serve_all (ops : list (World * Op)) (p : Process) : Process :=
  fold_left (fun q wop => serve (fst wop) (snd wop) q) ops p.

(** The ranker cache holds kind [k] and session [sess]. *)
Definition cached (k : string) (sess : option InferenceSession) (p : Process)
  : Prop :=
  _ranker_model p = Some k /\ _ranker_session p = sess.

(** A computation that leaves a filled ranker cache as it found it. *)
Definition keeps_cache {A} (m : Proc A) : Prop :=
  forall k sess p, cached k sess p -> cached k sess (snd (m p)).

End Spec.

Module Examples.

Definition encoder : SentenceTransformer :=
  {| model_name := Some utils.default_model_name |}.

(** A machine without [./models/ranker.onnx]. *)
Definition world_without_model : World :=
  {| now_ms := fun n => Z.of_nat n;
     new_SentenceTransformer := fun _ => inr encoder;
     import_onnxruntime := inr tt;
     os_path_exists := fun _ => false;
     new_InferenceSession :=
       fun path => inl (mkError "NoSuchFile" ("Load model from " ++ path ++ " failed"));
     np_array_float32 := fun rows => inr rows |}.

(** A session whose model declares the input [input] of shape [None, 4]:
    it refuses any other width and scores a row by its first feature. *)
Definition session : InferenceSession :=
  {| get_inputs := ["input"];
     run := fun _ batch =>
       if forallb (fun row => Nat.eqb (List.length row) 4) batch
       then inr [map (fun row => nth 0 row F64.zero) batch]
       else inl (mkError "InvalidArgument"
                   "Got invalid dimensions for input: input") |}.

(** A machine on which the model file is there and loads. *)
Definition world_with_model : World :=
  {| now_ms := fun n => Z.of_nat n;
     new_SentenceTransformer := fun _ => inr encoder;
     import_onnxruntime := inr tt;
     os_path_exists := fun _ => true;
     new_InferenceSession := fun _ => inr session;
     np_array_float32 := fun rows => inr rows |}.

(** A CSV file with the four feature columns and no [label] column. *)
Definition unlabelled : train_ranker.DataFrame :=
  {| train_ranker.columns := ["f0_sim"; "f1_recency"; "f2_trust"; "f3_geo"];
     train_ranker.rows := [[F64.lit 9 10; F64.lit 1 10; F64.lit 5 10; F64.lit 3 10]] |}.

(** A CSV file with every column, and one empty cell. *)
Definition with_gap : train_ranker.DataFrame :=
  {| train_ranker.columns := ["label"; "f0_sim"; "f1_recency"; "f2_trust"; "f3_geo"];
     train_ranker.rows :=
       [[F64.of_Z 1; F64.lit 9 10; F64.nan; F64.lit 5 10; F64.lit 3 10];
        [F64.of_Z 0; F64.lit 2 10; F64.lit 4 10; F64.lit 5 10; F64.lit 1 10]] |}.

(** Libraries that read [unlabelled] from "data.csv", [with_gap] from any
    other path, and train and export without failing. *)
Definition training_world : train_ranker.World unit :=
  {| train_ranker.read_csv :=
       fun path => if String.eqb path "data.csv" then inr unlabelled
                   else inr with_gap;
     train_ranker.lgb_train := fun _ _ _ _ => inr tt;
     train_ranker.convert_and_save := fun _ _ => inr tt |}.

Definition training_args : train_ranker.Args :=
  {| train_ranker.csv := "data.csv";
     train_ranker.out := "models/ranker.onnx";
     train_ranker.test_size := F64.lit 2 10;
     train_ranker.random_state := 42 |}.

Definition half : F64.float := F64.lit 5 10.

Definition num (z : Z) : F64.float := F64.of_Z z.


(** pairs=[{user_vec:[1,0], item_vec:[1,0]}], method="cosine" *)
Definition cosine_request : main.ScoreRequest :=
  {| main.pairs := [ {| main.user_vec := [num 1; num 0];
                        main.item_vec := [num 1; num 0] |} ];
     main.method := "cosine" |}.

(** pairs=[{user_vec:[2,0], item_vec:[3,0]}], method="dot" *)
Definition dot_request : main.ScoreRequest :=
  {| main.pairs := [ {| main.user_vec := [num 2; num 0];
                        main.item_vec := [num 3; num 0] |} ];
     main.method := "dot" |}.

(** A good pair followed by one whose vectors differ in length. *)
Definition mismatched_request : main.ScoreRequest :=
  {| main.pairs := [ {| main.user_vec := [num 1; num 0];
                        main.item_vec := [num 1; num 0] |};
                     {| main.user_vec := [num 1; num 0];
                        main.item_vec := [num 1] |} ];
     main.method := "cosine" |}.

Definition rank_request : main.RankRequest :=
  {| main.features := [[half; half; half; half]] |}.

(** A request whose only row has three features. *)
Definition short_rank_request : main.RankRequest :=
  {| main.features := [[half; half; half]] |}.

End Examples.

(** ** More sample worlds and requests *)

Module Samples.

(** A machine on which the sentence encoder cannot be loaded. *)
Definition world_without_encoder : World :=
  {| now_ms := fun n => Z.of_nat n;
     new_SentenceTransformer :=
       fun name => inl (mkError "OSError" ("Cannot load " ++ name));
     import_onnxruntime := inr tt;
     os_path_exists := fun _ => false;
     new_InferenceSession := fun path => inl (mkError "NoSuchFile" path);
     np_array_float32 := fun rows => inr rows |}.

(** An encoder that maps every text to the vector [1, 0]. *)
Definition encode : main.Encode :=
  fun _ texts _ => inr (map (fun _ => [F64.of_Z 1; F64.of_Z 0]) texts).

Definition embed_request : main.EmbedRequest :=
  {| main.texts := ["lathe fitter"; "injection moulding operator"];
     main.normalize := true |}.

(** A CSV file with the header line and no row. *)
Definition header_only : train_ranker.DataFrame :=
  {| train_ranker.columns := ["label"; "f0_sim"; "f1_recency"; "f2_trust"; "f3_geo"];
     train_ranker.rows := [] |}.

(** Export libraries on a machine without onnxruntime: directories are
    made, but not the one of the empty path, the model is converted and
    written, and the check of the written file fails at the import. *)
Definition export_libs : train_ranker.ExportLibs unit string :=
  {| train_ranker.makedirs :=
       fun path =>
         if String.eqb path EmptyString
         then inl (mkError "FileNotFoundError"
                     "[Errno 2] No such file or directory: ''")
         else inr tt;
     train_ranker.convert_lightgbm := fun _ => inr "onnx";
     train_ranker.write_model := fun _ _ => inr tt;
     train_ranker.check_session :=
       fun _ => inl (mkError "ModuleNotFoundError"
                       "No module named 'onnxruntime'") |}.

(** Libraries that read [table], train with outcome [trained] and export
    with outcome [saved]. *)
Definition training_world_of (table : lib train_ranker.DataFrame)
    (trained saved : lib unit) : train_ranker.World unit :=
  {| train_ranker.read_csv := fun _ => table;
     train_ranker.lgb_train := fun _ _ _ _ => trained;
     train_ranker.convert_and_save := fun _ _ => saved |}.

End Samples.

(** ** The serving process as a state machine *)

Module Service.

(** The five operations of the service. *)
Inductive Request :=
| Health
| Embed (request : main.EmbedRequest)
| Score (request : main.ScoreRequest)
| Rank (request : main.RankRequest)
| RankerHealth.

(** One request, with the world and the encoder of its moment. *)
Record Call := {
  world : World;
  encode : main.Encode;
  request : Request
}.

(** The process after a request is served. *)
Definition handle (c : Call) (p : Process) : Process :=
  match request c with
  | Health => snd (main.health_check (world c) p)
  | Embed r => snd (main.embed_texts (world c) (encode c) r p)
  | Score r => snd (main.score_pairs (world c) r p)
  | Rank r => snd (main.rank_candidates (world c) r p)
  | RankerHealth => snd (main.ranker_health (world c) p)
  end.

Definition handle_all (calls : list Call) (p : Process) : Process :=
  fold_left (fun q c => handle c q) calls p.

(** A computation keeps a property of the process. *)
Definition preserves (I : Process -> Prop) {A} (m : Proc A) : Prop :=
  forall p, I p -> I (snd (m p)).

(** The property looks at the three caches only. *)
Definition on_caches (I : Process -> Prop) : Prop :=
  forall p q,
    _model p = _model q -> _ranker_model p = _ranker_model q ->
    _ranker_session p = _ranker_session q -> I p -> I q.

(** The shapes of the ranker cache: empty, "fallback" without a session,
    "onnx" with one. *)
Definition ranker_wf (p : Process) : Prop :=
  (_ranker_model p = None /\ _ranker_session p = None)
  \/ (_ranker_model p = Some "fallback" /\ _ranker_session p = None)
  \/ (_ranker_model p = Some "onnx" /\ exists s, _ranker_session p = Some s).

(** Two processes that differ in the number of clock readings at most. *)
Definition same_but_clock (p q : Process) : Prop :=
  _model q = _model p /\ _ranker_model q = _ranker_model p
  /\ _ranker_session q = _ranker_session p /\ trace q = trace p.

End Service.

(** * Properties *)

(** ** Sample runs *)

Example first_call_loads_the_model :
  trace (snd (main.get_ranker Examples.world_with_model fresh))
  = [Import "onnxruntime"; PathExists main.model_path;
     Print "Loading ONNX ranker from: ./models/ranker.onnx";
     Construct "InferenceSession" main.model_path;
     Print "âœ… ONNX ranker loaded successfully"].
Proof. reflexivity. Qed.

Example first_call_without_file :
  main.get_ranker Examples.world_without_model fresh
  = (Return (Some "fallback", None),
     {| _model := None; _ranker_model := Some "fallback";
        _ranker_session := None; clock_reads := 0;
        trace := [Import "onnxruntime"; PathExists main.model_path;
                  Print "ONNX model not found at ./models/ranker.onnx, using fallback"] |}).
Proof. reflexivity. Qed.

Example cosine_of_3_4_and_4_3 :
  utils.cosine_similarity [F64.of_Z 3; F64.of_Z 4] [F64.of_Z 4; F64.of_Z 3]
  = Return (F64.lit 96 100).
Proof. vm_compute. reflexivity. Qed.

Example dot_of_unequal_lengths :
  utils.dot_product [F64.of_Z 1; F64.of_Z 2] [F64.of_Z 3]
  = Raise (ValueError "shapes (2,) and (1,) not aligned: 2 (dim 0) != 1 (dim 0)").
Proof. reflexivity. Qed.

Example onnx_rank_of_a_good_row :
  fst (main.rank_candidates Examples.world_with_model Examples.rank_request fresh)
  = Return {| main.RankResponse.scores := [Examples.half];
              main.RankResponse.model := "onnx";
              main.RankResponse.took_ms := 1 |}.
Proof. vm_compute. reflexivity. Qed.

Example training_with_a_gap_succeeds :
  fst (train_ranker.run Examples.training_world
         {| train_ranker.csv := "train.csv";
            train_ranker.out := "models/ranker.onnx";
            train_ranker.test_size := F64.lit 2 10;
            train_ranker.random_state := 42 |}) = 0%Z.
Proof. vm_compute. reflexivity. Qed.

(** ** The ranker cache *)

Section RankerCache.

Variable w : World.

(** Once a kind is cached, [get_ranker] answers from the cache: it touches
    neither the world nor the process state. *)
Lemma get_ranker_cached (p : Process) (k : string) :
  _ranker_model p = Some k ->
  main.get_ranker w p = (Return (Some k, _ranker_session p), p).
Proof.
  intros Hk. unfold main.get_ranker, bind, get, ret. rewrite Hk.
  simpl. rewrite Hk. reflexivity.
Qed.

(** The clock plays no part in the answer of [get_ranker]. *)
Lemma get_ranker_clock (p : Process) (n : nat) :
  fst (main.get_ranker w
         {| _model := _model p; _ranker_model := _ranker_model p;
            _ranker_session := _ranker_session p;
            clock_reads := n; trace := trace p |})
  = fst (main.get_ranker w p).
Proof.
  unfold main.get_ranker, bind, get, ret, try_except, emit, print,
    set_ranker_model, set_ranker_session, modify, lift.
  destruct p as [m [k|] rs c t]; simpl; [reflexivity|].
  destruct (import_onnxruntime w); simpl; [reflexivity|].
  destruct (os_path_exists w main.model_path); simpl; [|reflexivity].
  destruct (new_InferenceSession w main.model_path); reflexivity.
Qed.

(** [get_ranker] never raises and always names a kind. *)
Lemma get_ranker_total (p : Process) :
  exists k s p', main.get_ranker w p = (Return (Some k, s), p')
                 /\ (k = "onnx" \/ k = "fallback" \/ _ranker_model p = Some k).
Proof.
  unfold main.get_ranker, bind, get, ret, try_except, emit, print,
    set_ranker_model, set_ranker_session, modify, lift.
  destruct p as [m [k|] rs c t]; simpl.
  - eexists _, _, _. split; [reflexivity|auto].
  - destruct (import_onnxruntime w); simpl.
    + eexists _, _, _. split; [reflexivity|auto].
    + destruct (os_path_exists w main.model_path); simpl.
      * destruct (new_InferenceSession w main.model_path); simpl;
          eexists _, _, _; (split; [reflexivity|auto]).
      * eexists _, _, _. split; [reflexivity|auto].
Qed.

End RankerCache.

(** ** Ranking in fallback mode *)

Section FallbackLoop.




(** The score of a row of four features, spelled out. *)
Lemma linear_combination_4 (f0 f1 f2 f3 : F64.float) :
  main.linear_combination [f0; f1; f2; f3]
  = builtins.sum [F64.mul (F64.lit 10 10) f0; F64.mul (F64.lit 2 10) f1;
                  F64.mul (F64.lit 2 10) f2; F64.mul (F64.lit 2 10) f3].
Proof. reflexivity. Qed.

End FallbackLoop.

(** ** C1 *)

Section RankFallback.

Variable w : World.
Variable p : Process.
Variable request : main.RankRequest.
Variable sess : option InferenceSession.

Hypothesis fallback_mode :
  fst (main.get_ranker w p) = Return (Some "fallback", sess).


End RankFallback.

(** The score of the row [0.5,0.5,0.5,0.5] is the float 0.8 with the
    compensated [sum] of CPython 3.12 and later.  Added with plain [+] from
    left to right, as by the [sum] of earlier versions, the same four products
    give the float just below, 0.7999999999999999. *)
Remark sum_of_halves :
  main.linear_combination
    [Examples.half; Examples.half; Examples.half; Examples.half]
  = F64.lit 8 10
  /\ builtins.sum_left_to_right
       (map (fun wf => F64.mul (fst wf) (snd wf))
            (combine main.weights
               [Examples.half; Examples.half; Examples.half; Examples.half]))
     = S754_finite false 7205759403792793 (-53)
  /\ F64.lit 8 10 = S754_finite false 7205759403792794 (-53).
Proof. repeat split; vm_compute; reflexivity. Qed.



(** ** C2 *)

Lemma get_ranker_calls_cached (ws : list World) (p : Process) (k : string) :
  _ranker_model p = Some k ->
  Spec.get_ranker_calls ws p
  = (repeat (Return (Some k, _ranker_session p)) (List.length ws), p).
Proof.
  intros Hk. induction ws as [|w ws IH]; simpl; [reflexivity|].
  rewrite (get_ranker_cached w p Hk), IH. reflexivity.
Qed.

Section CacheIsKept.

Import Spec.

Lemma keeps_ret (A : Type) (a : A) : keeps_cache (ret a).
Proof. intros k sess p H. exact H. Qed.

Lemma keeps_raise (A : Type) (e : exn) : keeps_cache (raise (A := A) e).
Proof. intros k sess p H. exact H. Qed.

Lemma keeps_lift (A : Type) (r : result A) : keeps_cache (lift r).
Proof. intros k sess p H. exact H. Qed.

Lemma keeps_bind (A B : Type) (m : Proc A) (f : A -> Proc B) :
  keeps_cache m -> (forall a, keeps_cache (f a)) -> keeps_cache (bind m f).
Proof.
  intros Hm Hf k sess p H. unfold bind.
  specialize (Hm k sess p H). destruct (m p) as [[a|e] p1]; simpl in *.
  - exact (Hf a k sess p1 Hm).
  - exact Hm.
Qed.

Lemma keeps_try_except (A : Type) (m : Proc A) (h : exn -> Proc A) :
  keeps_cache m -> (forall e, keeps_cache (h e)) -> keeps_cache (try_except m h).
Proof.
  intros Hm Hh k sess p H. unfold try_except.
  specialize (Hm k sess p H). destruct (m p) as [[a|e] p1]; simpl in *.
  - exact Hm.
  - exact (Hh e k sess p1 Hm).
Qed.

Lemma keeps_for_each (A B : Type) (xs : list A) (body : B -> A -> Proc B) :
  (forall acc x, keeps_cache (body acc x)) ->
  forall acc, keeps_cache (for_each xs body acc).
Proof.
  intros Hbody. induction xs as [|x xs IH]; intros acc; simpl.
  - apply keeps_ret.
  - apply keeps_bind; [apply Hbody|exact IH].
Qed.

Lemma keeps_read_clock (w : World) : keeps_cache (read_clock w).
Proof. intros k sess p H. exact H. Qed.

Lemma keeps_emit (e : Event) : keeps_cache (emit e).
Proof. intros k sess p H. exact H. Qed.

Lemma keeps_set_model (v : option SentenceTransformer) :
  keeps_cache (set_model v).
Proof. intros k sess p H. exact H. Qed.

Lemma keeps_get_model (w : World) : keeps_cache (utils.get_model w).
Proof.
  intros k sess p H. unfold utils.get_model, bind, get.
  destruct (_model p) as [m|].
  - exact H.
  - revert k sess p H.
    change (keeps_cache
              (print "Loading sentence transformer model..." ;;;
               emit (Construct "SentenceTransformer" utils.default_model_name) ;;;
               m <- lift (of_lib (new_SentenceTransformer w
                                    utils.default_model_name)) ;;
               set_model (Some m) ;;; emit PrintLoadTime ;;; ret m)).
    repeat (apply keeps_bind; intros);
      auto using keeps_emit, keeps_lift, keeps_set_model, keeps_ret.
    apply keeps_emit.
Qed.

Lemma keeps_get_ranker (w : World) : keeps_cache (main.get_ranker w).
Proof.
  intros k sess p [Hk Hs].
  rewrite (get_ranker_cached w p Hk). now split.
Qed.

Lemma keeps_str_field (v : option string) :
  keeps_cache (main.str_field (S := Process) v).
Proof. destruct v; [apply keeps_ret|apply keeps_raise]. Qed.

Lemma keeps_first (A : Type) (xs : list A) :
  keeps_cache (main.first (S := Process) xs).
Proof. destruct xs; [apply keeps_raise|apply keeps_ret]. Qed.

Lemma keeps_score_pair (method : string) (acc : list F64.float)
    (pair : main.VectorPair) :
  keeps_cache (main.score_pair method acc pair).
Proof.
  unfold main.score_pair.
  destruct (negb _); [apply keeps_raise|].
  apply keeps_bind; [|intros; apply keeps_ret].
  destruct (String.eqb method "cosine"); [apply keeps_lift|].
  destruct (String.eqb method "dot"); [apply keeps_lift|apply keeps_raise].
Qed.

Lemma keeps_fallback_row (acc row : list F64.float) :
  keeps_cache (main.fallback_row acc row).
Proof.
  unfold main.fallback_row.
  destruct (negb _); [apply keeps_raise|apply keeps_ret].
Qed.

Lemma keeps_onnx_scores (w : World) (sess : InferenceSession)
    (request : main.RankRequest) :
  keeps_cache (main.onnx_scores w sess request).
Proof.
  unfold main.onnx_scores.
  repeat (apply keeps_bind; intros);
    auto using keeps_lift, keeps_first.
Qed.

Lemma keeps_handler (A : Type) (prefix : string) (e : exn) :
  keeps_cache
    (match e with
     | HTTPException _ _ => raise (A := A) e
     | Other _ => raise (HTTPException 500 (prefix ++ str e))
     end).
Proof. destruct e; apply keeps_raise. Qed.

(** Serving a request leaves a filled ranker cache as it was. *)
Lemma serve_keeps_cache (w : World) (op : Op) (k : string)
    (sess : option InferenceSession) (p : Process) :
  cached k sess p -> cached k sess (serve w op p).
Proof.
  revert k sess p. change (keeps_cache (fun p => (Return tt, serve w op p))).
  destruct op as [|request|request| |]; intros k sess p H; simpl.
  - revert k sess p H. change (keeps_cache (main.health_check w)).
    apply keeps_try_except; [|intros; apply keeps_ret].
    apply keeps_bind; [apply keeps_get_model|intros; apply keeps_ret].
  - revert k sess p H. change (keeps_cache (main.score_pairs w request)).
    apply keeps_bind; [apply keeps_read_clock|intros start_time].
    apply keeps_try_except; [|intros; apply keeps_handler].
    apply keeps_bind;
      [apply keeps_for_each; intros; apply keeps_score_pair|intros].
    apply keeps_bind; [apply keeps_read_clock|intros; apply keeps_ret].
  - revert k sess p H. change (keeps_cache (main.rank_candidates w request)).
    apply keeps_bind; [apply keeps_read_clock|intros start_time].
    apply keeps_try_except; [|intros; apply keeps_handler].
    apply keeps_bind; [apply keeps_get_ranker|intros r].
    apply keeps_bind.
    + destruct (main.is_onnx (fst r)), (snd r);
        try apply keeps_onnx_scores;
        apply keeps_for_each; intros; apply keeps_fallback_row.
    + intros. apply keeps_bind; [apply keeps_read_clock|intros].
      apply keeps_bind; [apply keeps_str_field|intros; apply keeps_ret].
  - revert k sess p H. change (keeps_cache (main.ranker_health w)).
    apply keeps_try_except; [|intros; apply keeps_ret].
    apply keeps_bind; [apply keeps_get_ranker|intros].
    apply keeps_bind; [apply keeps_str_field|intros; apply keeps_ret].
  - exact (keeps_get_ranker w H).
Qed.

Lemma serve_all_keeps_cache (ops : list (World * Op)) (k : string)
    (sess : option InferenceSession) (p : Process) :
  cached k sess p -> cached k sess (serve_all ops p).
Proof.
  unfold serve_all. revert p.
  induction ops as [|[w op] ops IH]; intros p H; simpl; [exact H|].
  apply IH, serve_keeps_cache, H.
Qed.

End CacheIsKept.

(** C2: the first call of [get_ranker] decides the kind, "onnx" when the
    model file is there and loads, "fallback" when it is absent or anything
    in the load raises; every later call, whatever the world has become,
    returns that same answer and leaves the process as it was, its trace
    included: the file system is not looked at again and the load is not
    tried again.  The answer is the same after any sequence of requests
    served in between. *)
Theorem ranker_kind_is_permanent (w : World) (p : Process) :
  _ranker_model p = None ->
  exists k sess p1,
    main.get_ranker w p = (Return (Some k, sess), p1)
    /\ ((k = "onnx"
         /\ import_onnxruntime w = inr tt
         /\ os_path_exists w main.model_path = true
         /\ exists s, new_InferenceSession w main.model_path = inr s
                      /\ sess = Some s)
        \/ (k = "fallback"
            /\ ((exists e, import_onnxruntime w = inl e)
                \/ os_path_exists w main.model_path = false
                \/ exists e, new_InferenceSession w main.model_path = inl e)))
    /\ (forall later : list World,
          Spec.get_ranker_calls later p1
          = (repeat (Return (Some k, sess)) (List.length later), p1))
    /\ (forall (served : list (World * Spec.Op)) (w' : World),
          fst (main.get_ranker w' (Spec.serve_all served p1))
          = Return (Some k, sess)).
Proof.
  intros Hnone.
  assert (Hstep : exists k sess p1,
             main.get_ranker w p = (Return (Some k, sess), p1)
             /\ _ranker_model p1 = Some k /\ _ranker_session p1 = sess
             /\ ((k = "onnx"
                  /\ import_onnxruntime w = inr tt
                  /\ os_path_exists w main.model_path = true
                  /\ exists s, new_InferenceSession w main.model_path = inr s
                               /\ sess = Some s)
                 \/ (k = "fallback"
                     /\ ((exists e, import_onnxruntime w = inl e)
                         \/ os_path_exists w main.model_path = false
                         \/ exists e, new_InferenceSession w main.model_path = inl e)))).
  { unfold main.get_ranker, bind, get, ret, try_except, emit, print,
      set_ranker_model, set_ranker_session, modify, lift.
    destruct p as [m rm rs c t]. simpl in Hnone. subst rm. simpl.
    destruct (import_onnxruntime w) as [e|[]] eqn:Himp; simpl.
    - eexists _, _, _. split; [reflexivity|]. simpl. repeat split.
      right. split; [reflexivity|]. left. now exists e.
    - destruct (os_path_exists w main.model_path) eqn:Hex; simpl.
      + destruct (new_InferenceSession w main.model_path) as [e|s] eqn:Hload;
          simpl.
        * eexists _, _, _. split; [reflexivity|]. simpl. repeat split.
          right. split; [reflexivity|]. right. right. now exists e.
        * eexists _, _, _. split; [reflexivity|]. simpl. repeat split.
          left. repeat split. now exists s.
      + eexists _, _, _. split; [reflexivity|]. simpl. repeat split.
        right. split; [reflexivity|]. right. now left. }
  destruct Hstep as (k & sess & p1 & Hrun & Hk & Hs & Hkind).
  exists k, sess, p1. split; [exact Hrun|]. split; [exact Hkind|]. split.
  - intros later.
    rewrite (get_ranker_calls_cached later p1 Hk), Hs. reflexivity.
  - intros served w'.
    destruct (serve_all_keeps_cache served (conj Hk Hs)) as [Hk' Hs'].
    rewrite (get_ranker_cached w' _ Hk'), Hs'. reflexivity.
Qed.

Lemma ranker_kind_is_permanent_witness :
  _ranker_model fresh = None
  /\ exists k sess p1,
       main.get_ranker Examples.world_with_model fresh = (Return (Some k, sess), p1)
       /\ Spec.get_ranker_calls
            [Examples.world_without_model; Examples.world_with_model] p1
          = ([Return (Some k, sess); Return (Some k, sess)], p1).
Proof.
  split; [reflexivity|].
  destruct (ranker_kind_is_permanent Examples.world_with_model fresh eq_refl)
    as (k & sess & p1 & Hrun & _ & Hlater & _).
  exists k, sess, p1. split; [exact Hrun|].
  exact (Hlater [Examples.world_without_model; Examples.world_with_model]).
Defined.

(** ** C7 *)

(** C7: neither health operation raises.  [health_check] answers ok=true
    with the model's name and ready=true when the encoder is available, and
    ok=false, model="error", ready=false when getting it fails;
    [ranker_health] answers ok=true with the current ranker kind, or ok=false
    with model="error"; dimsExpected is 4 in both. *)
Theorem health_operations_never_raise (w : World) (p : Process) :
  (exists resp p',
     main.health_check w p = (Return resp, p')
     /\ ((exists m,
            fst (utils.get_model w p) = Return m
            /\ resp = {| main.HealthResponse.ok := true;
                         main.HealthResponse.model :=
                           match model_name m with
                           | Some name => name
                           | None => utils.default_model_name
                           end;
                         main.HealthResponse.ready := true |})
         \/ ((exists e, fst (utils.get_model w p) = Raise e)
             /\ resp = {| main.HealthResponse.ok := false;
                          main.HealthResponse.model := "error";
                          main.HealthResponse.ready := false |})))
  /\ (exists resp p',
        main.ranker_health w p = (Return resp, p')
        /\ ((exists k sess,
               fst (main.get_ranker w p) = Return (Some k, sess)
               /\ resp = {| main.RankerHealthResponse.ok := true;
                            main.RankerHealthResponse.model := k;
                            main.RankerHealthResponse.dimsExpected := 4 |})
            \/ resp = {| main.RankerHealthResponse.ok := false;
                         main.RankerHealthResponse.model := "error";
                         main.RankerHealthResponse.dimsExpected := 4 |})).
Proof.
  split.
  - unfold main.health_check, try_except, bind.
    destruct (utils.get_model w p) as [[m|e] p1]; simpl.
    + eexists _, _. split; [reflexivity|]. left. exists m. now split.
    + eexists _, _. split; [reflexivity|]. right. split; [now exists e|reflexivity].
  - unfold main.ranker_health, try_except, bind.
    destruct (get_ranker_total w p) as (k & sess & p1 & Hrun & _).
    rewrite Hrun. simpl.
    eexists _, _. split; [reflexivity|]. left. exists k, sess. now split.
Qed.

(** ** C9 *)

Section RankOnnx.

Variable w : World.
Variable p : Process.
Variable request : main.RankRequest.
Variable sess : InferenceSession.

Hypothesis onnx_mode :
  fst (main.get_ranker w p) = Return (Some "onnx", Some sess).

(** The ONNX branch is the whole of the work: the rows go to numpy and to
    the session as they came, and the handler maps what happens there. *)
Lemma rank_onnx_runs_session :
  exists t p',
    fst (main.rank_candidates w request p)
    = match main.onnx_scores w sess request p' with
      | (Return scores, _) =>
          Return {| main.RankResponse.scores := scores;
                    main.RankResponse.model := "onnx";
                    main.RankResponse.took_ms := t |}
      | (Raise (HTTPException c d), _) => Raise (HTTPException c d)
      | (Raise (Other e), _) =>
          Raise (HTTPException 500 ("Ranking failed: " ++ exc_str e))
      end.
Proof.
  unfold main.rank_candidates, bind, utils.time_ms, read_clock, try_except.
  pose proof (get_ranker_clock w p (S (clock_reads p))) as Hclock.
  rewrite onnx_mode in Hclock.
  set (p1 := {| _model := _model p; _ranker_model := _ranker_model p;
                _ranker_session := _ranker_session p;
                clock_reads := S (clock_reads p); trace := trace p |}) in *.
  destruct (main.get_ranker w p1) as [r p2]. simpl in Hclock. subst r.
  simpl.
  assert (Hstate : snd (main.onnx_scores w sess request p2) = p2).
  { unfold main.onnx_scores, bind, lift, main.first, ret, raise.
    destruct (np_array_float32 w (main.features request)); simpl; [reflexivity|].
    destruct (get_inputs sess); simpl; [reflexivity|].
    destruct (run sess _ _) as [e|[|o outs]]; reflexivity. }
  exists (now_ms w (clock_reads p2) - now_ms w (clock_reads p))%Z, p2.
  destruct (main.onnx_scores w sess request p2) as [[scores|[c d|e]] p3];
    simpl in Hstate; subst p3; reflexivity.
Qed.

End RankOnnx.

(** What the ONNX branch comes to, as a function of the oracles. *)
Lemma onnx_scores_cases (w : World) (sess : InferenceSession)
    (request : main.RankRequest) (p : Process) :
  fst (main.onnx_scores w sess request p)
  = match np_array_float32 w (main.features request) with
    | inl e => Raise (Other e)
    | inr features_array =>
        match get_inputs sess with
        | [] => Raise (IndexError "list index out of range")
        | input_name :: _ =>
            match run sess input_name features_array with
            | inl e => Raise (Other e)
            | inr [] => Raise (IndexError "list index out of range")
            | inr (scores :: _) => Return scores
            end
        end
    end.
Proof.
  unfold main.onnx_scores, bind, lift, main.first, ret, raise.
  destruct (np_array_float32 w (main.features request)); simpl; [reflexivity|].
  destruct (get_inputs sess); simpl; [reflexivity|].
  destruct (run sess _ _) as [e|[|o outs]]; reflexivity.
Qed.

(** C9: with the kind "onnx" and a session cached, [rank_candidates] checks
    the width of no row.  Whatever the rows are, the request is never
    rejected with "Expected 4 features per candidate": the rows go to the
    tensor construction and to the session, the session's first output is the
    answer, reported with model "onnx", and any exception on the way comes
    out as the server fault "Ranking failed: ...". *)
Theorem rank_onnx_skips_width_check
    (w : World) (p : Process) (request : main.RankRequest)
    (sess : InferenceSession) :
  fst (main.get_ranker w p) = Return (Some "onnx", Some sess) ->
  fst (main.rank_candidates w request p)
    <> Raise (HTTPException 400 "Expected 4 features per candidate")
  /\ match np_array_float32 w (main.features request) with
     | inl e =>
         fst (main.rank_candidates w request p)
         = Raise (HTTPException 500 ("Ranking failed: " ++ exc_str e))
     | inr features_array =>
         match get_inputs sess with
         | [] =>
             fst (main.rank_candidates w request p)
             = Raise (HTTPException 500 "Ranking failed: list index out of range")
         | input_name :: _ =>
             match run sess input_name features_array with
             | inl e =>
                 fst (main.rank_candidates w request p)
                 = Raise (HTTPException 500 ("Ranking failed: " ++ exc_str e))
             | inr [] =>
                 fst (main.rank_candidates w request p)
                 = Raise (HTTPException 500
                            "Ranking failed: list index out of range")
             | inr (scores :: _) =>
                 exists t,
                   fst (main.rank_candidates w request p)
                   = Return {| main.RankResponse.scores := scores;
                               main.RankResponse.model := "onnx";
                               main.RankResponse.took_ms := t |}
             end
         end
     end.
Proof.
  intros Hmode.
  destruct (@rank_onnx_runs_session w p request sess Hmode) as (t & p' & Hrun).
  pose proof (onnx_scores_cases w sess request p') as Hcases.
  destruct (main.onnx_scores w sess request p') as [r p'']. simpl in Hcases.
  subst r.
  destruct (np_array_float32 w (main.features request)) as [e|arr].
  { rewrite Hrun. split; [discriminate|reflexivity]. }
  destruct (get_inputs sess) as [|input_name names].
  { rewrite Hrun. split; [discriminate|reflexivity]. }
  destruct (run sess input_name arr) as [e|[|scores outs]].
  - rewrite Hrun. split; [discriminate|reflexivity].
  - rewrite Hrun. split; [discriminate|reflexivity].
  - rewrite Hrun. split; [discriminate|]. now exists t.
Qed.

Lemma rank_onnx_skips_width_check_witness :
  fst (main.get_ranker Examples.world_with_model fresh)
  = Return (Some "onnx", Some Examples.session)
  /\ fst (main.rank_candidates Examples.world_with_model
            Examples.short_rank_request fresh)
     = Raise (HTTPException 500
                "Ranking failed: Got invalid dimensions for input: input").
Proof.
  split; [reflexivity|].
  exact (proj2 (rank_onnx_skips_width_check Examples.world_with_model fresh
                  Examples.short_rank_request (sess := Examples.session)
                  eq_refl)).
Defined.

(** ** Scoring: C3, C4, C10 *)

Section Scoring.

Lemma divide_length (a : list F64.float) (s : F64.float) :
  List.length (np.divide a s) = List.length a.
Proof. apply length_map. Qed.

Lemma dot_same_length (a b : list F64.float) :
  List.length a = List.length b -> np.dot a b = Return (np.inner64 a b).
Proof.
  intros H. unfold np.dot. rewrite H, Nat.eqb_refl. reflexivity.
Qed.

Lemma dot_product_returns (a b : list F64.float) :
  List.length a = List.length b ->
  utils.dot_product a b = Return (np.inner64 a b).
Proof. apply dot_same_length. Qed.

Lemma cosine_similarity_returns (a b : list F64.float) :
  List.length a = List.length b ->
  utils.cosine_similarity a b
  = Return (np.inner64 (np.divide a (np.linalg_norm a))
                       (np.divide b (np.linalg_norm b))).
Proof.
  intros H. unfold utils.cosine_similarity. apply dot_same_length.
  now rewrite !divide_length.
Qed.

Lemma similarity_returns (method : string) (pair : main.VectorPair) :
  Spec.same_length pair -> exists s, Spec.similarity method pair = Return s.
Proof.
  intros H. unfold Spec.similarity.
  destruct (String.eqb method "cosine"); eexists.
  - now apply cosine_similarity_returns.
  - now apply dot_product_returns.
Qed.

(** The loop body on a pair of one length, for a method of the request
    shape: the score is appended, the process is untouched. *)
Lemma score_pair_same_length (method : string) (acc : list F64.float)
    (pair : main.VectorPair) (p : Process) :
  Spec.known_method method -> Spec.same_length pair ->
  exists s, Spec.similarity method pair = Return s
            /\ main.score_pair method acc pair p = (Return (acc ++ [s]), p).
Proof.
  intros Hm Hlen.
  destruct (similarity_returns method Hlen) as [s Hs].
  exists s. split; [exact Hs|].
  unfold main.score_pair. red in Hlen. rewrite Hlen, Nat.eqb_refl. simpl.
  unfold Spec.similarity in Hs. unfold bind, lift, ret.
  destruct Hm as [-> | ->]; simpl in *; now rewrite Hs.
Qed.

Lemma score_pair_mismatch (method : string) (acc : list F64.float)
    (pair : main.VectorPair) (p : Process) :
  ~ Spec.same_length pair ->
  main.score_pair method acc pair p
  = (Raise (HTTPException 400 "Vector dimensions must match"), p).
Proof.
  intros Hlen. unfold main.score_pair.
  destruct (Nat.eqb _ _) eqn:E; [|reflexivity].
  apply Nat.eqb_eq in E. contradiction.
Qed.

Lemma same_length_dec (pair : main.VectorPair) :
  {Spec.same_length pair} + {~ Spec.same_length pair}.
Proof. apply Nat.eq_dec. Qed.

Lemma score_loop_ok (method : string) (pairs : list main.VectorPair) :
  Spec.known_method method ->
  Forall Spec.same_length pairs ->
  forall (acc : list F64.float) (p : Process),
  exists scores,
    for_each pairs (main.score_pair method) acc p = (Return (acc ++ scores), p)
    /\ Forall2 (fun pair s => Spec.similarity method pair = Return s)
               pairs scores.
Proof.
  intros Hm. induction 1 as [|pair pairs Hpair _ IH]; intros acc p.
  - exists []. simpl. unfold ret. rewrite app_nil_r. now split.
  - destruct (score_pair_same_length acc p Hm Hpair) as (s & Hs & Hbody).
    destruct (IH (acc ++ [s]) p) as (scores & Hloop & Hall).
    exists (s :: scores). simpl. unfold bind. rewrite Hbody, Hloop.
    rewrite <- app_assoc. split; [reflexivity|]. now constructor.
Qed.

Lemma score_loop_reject (method : string) (pairs : list main.VectorPair) :
  Spec.known_method method ->
  Exists (fun pair => ~ Spec.same_length pair) pairs ->
  forall (acc : list F64.float) (p : Process),
    for_each pairs (main.score_pair method) acc p
    = (Raise (HTTPException 400 "Vector dimensions must match"), p).
Proof.
  intros Hm. induction pairs as [|pair pairs IH]; intros Hex acc p.
  - inversion Hex.
  - simpl. unfold bind.
    destruct (same_length_dec pair) as [Hlen|Hlen].
    + destruct (score_pair_same_length acc p Hm Hlen) as (s & _ & Hbody).
      rewrite Hbody. apply IH.
      inversion Hex; subst; [contradiction|assumption].
    + now rewrite (score_pair_mismatch method acc p Hlen).
Qed.

(** The handler around the loop: the answer of [score_pairs] follows the
    outcome of the loop. *)
Lemma score_pairs_follows_loop (w : World) (request : main.ScoreRequest)
    (p : Process) :
  exists p',
    fst (main.score_pairs w request p)
    = match for_each (main.pairs request)
              (main.score_pair (main.method request)) [] p' with
      | (Return scores, p'') =>
          Return {| main.ScoreResponse.scores := scores;
                    main.ScoreResponse.took_ms :=
                      (now_ms w (clock_reads p'') - now_ms w (clock_reads p))%Z |}
      | (Raise (HTTPException c d), _) => Raise (HTTPException c d)
      | (Raise (Other e), _) =>
          Raise (HTTPException 500 ("Scoring failed: " ++ exc_str e))
      end.
Proof.
  unfold main.score_pairs, bind, utils.time_ms, read_clock, try_except.
  set (p1 := {| _model := _model p; _ranker_model := _ranker_model p;
                _ranker_session := _ranker_session p;
                clock_reads := S (clock_reads p); trace := trace p |}).
  exists p1.
  destruct (for_each (main.pairs request) _ [] p1) as [[scores|[c d|e]] p''];
    reflexivity.
Qed.

Lemma known_method_of_valid (request : main.ScoreRequest) :
  main.valid_ScoreRequest request = true ->
  Spec.known_method (main.method request).
Proof.
  unfold main.valid_ScoreRequest. intros H.
  apply andb_prop in H as [_ H]. apply orb_prop in H as [H|H];
    apply String.eqb_eq in H; [now left|now right].
Qed.

End Scoring.

(** C3: a score request of the request shape in which some pair has vectors
    of different lengths is rejected as a whole with the client fault "Vector
    dimensions must match": no response, hence no score of any pair, comes
    back, and the rejection is not turned into a server fault. *)
Theorem score_mismatch_rejected
    (w : World) (p : Process) (request : main.ScoreRequest) :
  main.valid_ScoreRequest request = true ->
  Exists (fun pair => ~ Spec.same_length pair) (main.pairs request) ->
  fst (main.score_pairs w request p)
  = Raise (HTTPException 400 "Vector dimensions must match")
  /\ (forall resp, fst (main.score_pairs w request p) <> Return resp)
  /\ (forall detail,
        fst (main.score_pairs w request p) <> Raise (HTTPException 500 detail)).
Proof.
  intros Hvalid Hbad.
  destruct (score_pairs_follows_loop w request p) as (p' & Hrun).
  rewrite (score_loop_reject (known_method_of_valid request Hvalid) Hbad) in Hrun.
  rewrite Hrun. repeat split; intros; discriminate.
Qed.

Lemma score_mismatch_rejected_witness :
  main.valid_ScoreRequest Examples.mismatched_request = true
  /\ fst (main.score_pairs Examples.world_without_model
            Examples.mismatched_request fresh)
     = Raise (HTTPException 400 "Vector dimensions must match").
Proof.
  split; [reflexivity|].
  apply (score_mismatch_rejected Examples.world_without_model fresh
           Examples.mismatched_request); [reflexivity|].
  apply Exists_cons_tl, Exists_cons_hd. unfold Spec.same_length. simpl. lia.
Defined.

(** C4: a valid score request (1 to 512 pairs, each of one length, method
    "cosine" or "dot") is answered with one score per pair, in the order of
    the pairs, each computed by [cosine_similarity] under "cosine" and by
    [dot_product] under "dot"; the pair ([1,0],[1,0]) scores 1.0 under
    "cosine" and the pair ([2,0],[3,0]) scores 6.0 under "dot". *)
Theorem score_valid_request
    (w : World) (p : Process) (request : main.ScoreRequest) :
  main.valid_ScoreRequest request = true ->
  Forall Spec.same_length (main.pairs request) ->
  exists resp,
    fst (main.score_pairs w request p) = Return resp
    /\ List.length (main.ScoreResponse.scores resp)
       = List.length (main.pairs request)
    /\ (main.method request = "cosine" ->
        Forall2 (fun pair s =>
                   utils.cosine_similarity (main.user_vec pair)
                     (main.item_vec pair) = Return s)
                (main.pairs request) (main.ScoreResponse.scores resp))
    /\ (main.method request = "dot" ->
        Forall2 (fun pair s =>
                   utils.dot_product (main.user_vec pair)
                     (main.item_vec pair) = Return s)
                (main.pairs request) (main.ScoreResponse.scores resp))
    /\ (request = Examples.cosine_request ->
        main.ScoreResponse.scores resp = [F64.lit 10 10])
    /\ (request = Examples.dot_request ->
        main.ScoreResponse.scores resp = [F64.lit 60 10]).
Proof.
  intros Hvalid Hlen.
  destruct (score_pairs_follows_loop w request p) as (p' & Hrun).
  destruct (score_loop_ok (known_method_of_valid request Hvalid) Hlen [] p')
    as (scores & Hloop & Hall).
  rewrite Hloop in Hrun. simpl in Hrun.
  eexists. split; [exact Hrun|]. simpl.
  split; [symmetry; exact (Forall2_length Hall)|].
  split; [|split; [|split]].
  - intros Hm. rewrite Hm in Hall. exact Hall.
  - intros Hm. rewrite Hm in Hall. exact Hall.
  - intros ->. simpl in Hall.
    inversion Hall as [|? s ? rest Hs Hrest]; subst.
    inversion Hrest; subst.
    vm_compute in Hs. now inversion Hs.
  - intros ->. simpl in Hall.
    inversion Hall as [|? s ? rest Hs Hrest]; subst.
    inversion Hrest; subst.
    vm_compute in Hs. now inversion Hs.
Qed.

Lemma score_valid_request_witness :
  main.valid_ScoreRequest Examples.cosine_request = true
  /\ Forall Spec.same_length (main.pairs Examples.cosine_request)
  /\ exists resp,
       fst (main.score_pairs Examples.world_without_model
              Examples.cosine_request fresh) = Return resp
       /\ main.ScoreResponse.scores resp = [F64.lit 10 10].
Proof.
  assert (Hlen : Forall Spec.same_length (main.pairs Examples.cosine_request)).
  { repeat constructor. }
  split; [reflexivity|]. split; [exact Hlen|].
  destruct (score_valid_request Examples.world_without_model fresh
              Examples.cosine_request eq_refl Hlen)
    as (resp & Hrun & _ & _ & _ & Hcos & _).
  exists resp. split; [exact Hrun|]. exact (Hcos eq_refl).
Defined.

(** C10: for a method of the request shape, "cosine" or "dot", the branch
    that raises "Invalid method" is dead: [score_pairs] never answers with
    that client fault, the loop body never raises it, and every pair that
    reaches the dispatch goes to [cosine_similarity] or to [dot_product],
    never to both. *)
Theorem invalid_method_unreachable
    (w : World) (p : Process) (request : main.ScoreRequest) :
  Spec.known_method (main.method request) ->
  fst (main.score_pairs w request p)
    <> Raise (HTTPException 400 "Invalid method. Use 'cosine' or 'dot'")
  /\ forall (acc : list F64.float) (pair : main.VectorPair) (p0 : Process),
       fst (main.score_pair (main.method request) acc pair p0)
         <> Raise (HTTPException 400 "Invalid method. Use 'cosine' or 'dot'")
       /\ (Spec.same_length pair ->
           (main.method request = "cosine" /\ main.method request <> "dot"
            /\ exists s,
                 utils.cosine_similarity (main.user_vec pair)
                   (main.item_vec pair) = Return s
                 /\ main.score_pair (main.method request) acc pair p0
                    = (Return (acc ++ [s]), p0))
           \/ (main.method request = "dot" /\ main.method request <> "cosine"
               /\ exists s,
                    utils.dot_product (main.user_vec pair)
                      (main.item_vec pair) = Return s
                    /\ main.score_pair (main.method request) acc pair p0
                       = (Return (acc ++ [s]), p0))).
Proof.
  intros Hm. split.
  - destruct (score_pairs_follows_loop w request p) as (p' & Hrun).
    rewrite Hrun.
    destruct (Forall_Exists_dec Spec.same_length same_length_dec
                (main.pairs request)) as [Hall|Hex].
    + destruct (score_loop_ok Hm Hall [] p') as (scores & Hloop & _).
      rewrite Hloop. discriminate.
    + rewrite (score_loop_reject Hm Hex). discriminate.
  - intros acc pair p0.
    destruct (same_length_dec pair) as [Hlen|Hlen].
    + destruct (score_pair_same_length acc p0 Hm Hlen) as (s & Hs & Hbody).
      split; [rewrite Hbody; discriminate|]. intros _.
      unfold Spec.similarity in Hs.
      destruct Hm as [Hc|Hd].
      * left. rewrite Hc in Hs |- *. simpl in Hs.
        split; [reflexivity|]. split; [discriminate|].
        exists s. rewrite <- Hc. now split.
      * right. rewrite Hd in Hs |- *. simpl in Hs.
        split; [reflexivity|]. split; [discriminate|].
        exists s. rewrite <- Hd. now split.
    + rewrite (score_pair_mismatch _ acc p0 Hlen).
      split; [discriminate|]. intros H. contradiction.
Qed.

Lemma invalid_method_unreachable_witness :
  Spec.known_method (main.method Examples.cosine_request)
  /\ fst (main.score_pairs Examples.world_without_model
            Examples.cosine_request fresh)
     <> Raise (HTTPException 400 "Invalid method. Use 'cosine' or 'dot'").
Proof.
  split; [now left|].
  apply (invalid_method_unreachable Examples.world_without_model fresh
           Examples.cosine_request). now left.
Defined.

(** ** Vector math: C5, C6 *)

Section VectorMath.

Lemma mul_comm (x y : F64.float) : F64.mul x y = F64.mul y x.
Proof.
  unfold F64.mul, SFmul.
  destruct x as [sx|sx| |sx mx ex], y as [sy|sy| |sy my ey];
    try reflexivity; try (now rewrite xorb_comm).
  now rewrite xorb_comm, Pos.mul_comm, Z.add_comm.
Qed.

Lemma add_nan_l (x : F64.float) : F64.add F64.nan x = F64.nan.
Proof. reflexivity. Qed.

Lemma mul_nan_l (x : F64.float) : F64.mul F64.nan x = F64.nan.
Proof. reflexivity. Qed.

Lemma mul_nan_r (x : F64.float) : F64.mul x F64.nan = F64.nan.
Proof. now destruct x. Qed.

Lemma add_nan_r (x : F64.float) : F64.add x F64.nan = F64.nan.
Proof. now destruct x. Qed.

(** The inner product does not depend on the order of its arguments when
    the product does not. *)
Lemma inner_comm (R : Type) (zero : R) (add mul : R -> R -> R) :
  (forall x y, mul x y = mul y x) ->
  forall a b, np.inner zero add mul a b = np.inner zero add mul b a.
Proof.
  intros Hmul a b. unfold np.inner. generalize zero as acc.
  revert b. induction a as [|x a IH]; intros [|y b] acc; simpl; try reflexivity.
  rewrite (Hmul x y). apply IH.
Qed.

Lemma inner64_comm (a b : list F64.float) : np.inner64 a b = np.inner64 b a.
Proof. apply inner_comm, mul_comm. Qed.

(** Once NaN, the accumulator stays NaN. *)
Lemma fold_nan (l : list (F64.float * F64.float)) :
  fold_left (fun acc xy => F64.add acc (F64.mul (fst xy) (snd xy))) l F64.nan
  = F64.nan.
Proof. induction l as [|xy l IH]; simpl; [reflexivity|exact IH]. Qed.

Lemma inner64_nan_head (x y : F64.float) (a b : list F64.float) :
  x = F64.nan \/ y = F64.nan -> np.inner64 (x :: a) (y :: b) = F64.nan.
Proof.
  intros H. unfold np.inner64, np.inner. cbn [combine fold_left fst snd].
  assert (Hp : F64.mul x y = F64.nan).
  { destruct H as [-> | ->]; [apply mul_nan_l|apply mul_nan_r]. }
  rewrite Hp, add_nan_r. apply fold_nan.
Qed.

(** The squared norm of a vector of zeros is [+0.0]. *)
Lemma inner64_zeros (a : list F64.float) :
  Forall (fun x => F64.is_zero x = true) a -> np.inner64 a a = F64.zero.
Proof.
  unfold np.inner64, np.inner.
  induction 1 as [|x a Hx _ IH]; [reflexivity|].
  cbn [combine fold_left fst snd].
  destruct x as [s| | |]; try discriminate.
  replace (F64.add F64.zero (F64.mul (S754_zero s) (S754_zero s)))
    with F64.zero by (now destruct s).
  exact IH.
Qed.

Lemma divide_zeros (a : list F64.float) :
  Forall (fun x => F64.is_zero x = true) a ->
  np.divide a (np.linalg_norm a) = map (fun _ => F64.nan) a.
Proof.
  intros Hz. unfold np.linalg_norm. rewrite (inner64_zeros Hz).
  unfold np.divide. apply map_ext_in. intros x Hin.
  rewrite Forall_forall in Hz. specialize (Hz x Hin).
  destruct x as [s| | |]; try discriminate. reflexivity.
Qed.

Lemma cosine_similarity_comm (a b : list F64.float) :
  List.length a = List.length b ->
  utils.cosine_similarity a b = utils.cosine_similarity b a.
Proof.
  intros H.
  rewrite (cosine_similarity_returns a b H).
  rewrite (cosine_similarity_returns b a (eq_sym H)).
  now rewrite inner64_comm.
Qed.


Lemma cosine_zero_left (a b : list F64.float) :
  a <> [] -> List.length a = List.length b ->
  Forall (fun x => F64.is_zero x = true) a ->
  utils.cosine_similarity a b = Return F64.nan.
Proof.
  intros Hne Hlen Hz.
  rewrite (cosine_similarity_returns a b Hlen), (divide_zeros Hz).
  destruct a as [|x a]; [contradiction|].
  destruct b as [|y b]; [discriminate|].
  simpl. f_equal. apply inner64_nan_head. now left.
Qed.

End VectorMath.

(** C6: [cosine_similarity] has no guard for a zero norm.  When either vector
    is all zeros (and not empty) the division by the zero norm gives NaN, and
    NaN is what the function returns: not an exception and not a number.  So
    it is for the two vectors [0, 0]. *)
Theorem cosine_similarity_zero_norm (a b : list F64.float) :
  a <> [] ->
  List.length a = List.length b ->
  Forall (fun x => F64.is_zero x = true) a
  \/ Forall (fun x => F64.is_zero x = true) b ->
  utils.cosine_similarity a b = Return F64.nan
  /\ utils.cosine_similarity [F64.zero; F64.zero] [F64.zero; F64.zero]
     = Return F64.nan.
Proof.
  intros Hne Hlen Hz. split; [|reflexivity].
  destruct Hz as [Hz|Hz].
  - now apply cosine_zero_left.
  - rewrite (cosine_similarity_comm a b Hlen).
    apply cosine_zero_left; [|now symmetry|exact Hz].
    intros ->. destruct a; [contradiction|discriminate].
Qed.

Lemma cosine_similarity_zero_norm_witness :
  [F64.zero; F64.zero] <> []
  /\ utils.cosine_similarity [F64.zero; F64.zero] [F64.of_Z 1; F64.of_Z 2]
     = Return F64.nan.
Proof.
  split; [discriminate|].
  apply (cosine_similarity_zero_norm (a := [F64.zero; F64.zero])
           (b := [F64.of_Z 1; F64.of_Z 2])).
  - discriminate.
  - reflexivity.
  - left. repeat constructor.
Defined.


Section ExactInner.






End ExactInner.



(** ** The training script: C8 *)

Section LoadData.

Import train_ranker.

Lemma has_column_index (df : DataFrame) (col : string) :
  has_column df col = true ->
  exists i, index_of col (columns df) = Some i.
Proof.
  unfold has_column. induction (columns df) as [|c cols IH]; simpl.
  - discriminate.
  - rewrite (String.eqb_sym col c).
    destruct (String.eqb c col); [now exists 0%nat|].
    simpl. intros H. destruct (IH H) as [i Hi]. rewrite Hi. now exists (S i).
Qed.

Lemma no_missing_has_column (df : DataFrame) (col : string) :
  missing_cols df = [] -> In col required_cols -> has_column df col = true.
Proof.
  intros Hnil Hin.
  destruct (has_column df col) eqn:E; [reflexivity|].
  assert (Hmiss : In col (missing_cols df)).
  { apply filter_In. split; [exact Hin|]. now rewrite E. }
  rewrite Hnil in Hmiss. contradiction.
Qed.


Lemma fillna0_no_null (df : DataFrame) : isnull_any (fillna0 df) = false.
Proof.
  unfold isnull_any, fillna0. simpl.
  induction (rows df) as [|row rs IH]; simpl; [reflexivity|].
  rewrite IH, orb_false_r.
  induction row as [|x row IHrow]; simpl; [reflexivity|].
  rewrite IHrow, orb_false_r. now destruct x.
Qed.

End LoadData.



(** * Further properties of the code *)

(** ** What the operations keep *)

Section Preservation.

Import Service.

Variable I : Process -> Prop.

Lemma preserves_ret (A : Type) (a : A) : preserves I (ret a).
Proof. intros p H. exact H. Qed.

Lemma preserves_raise (A : Type) (e : exn) : preserves I (raise (A := A) e).
Proof. intros p H. exact H. Qed.

Lemma preserves_lift (A : Type) (r : result A) : preserves I (lift r).
Proof. intros p H. exact H. Qed.

Lemma preserves_bind (A B : Type) (m : Proc A) (f : A -> Proc B) :
  preserves I m -> (forall a, preserves I (f a)) -> preserves I (bind m f).
Proof.
  intros Hm Hf p H. unfold bind. specialize (Hm p H).
  destruct (m p) as [[a|e] p1]; simpl in *; [exact (Hf a p1 Hm)|exact Hm].
Qed.

Lemma preserves_try_except (A : Type) (m : Proc A) (h : exn -> Proc A) :
  preserves I m -> (forall e, preserves I (h e)) -> preserves I (try_except m h).
Proof.
  intros Hm Hh p H. unfold try_except. specialize (Hm p H).
  destruct (m p) as [[a|e] p1]; simpl in *; [exact Hm|exact (Hh e p1 Hm)].
Qed.

Lemma preserves_for_each (A B : Type) (xs : list A) (body : B -> A -> Proc B) :
  (forall acc x, preserves I (body acc x)) ->
  forall acc, preserves I (for_each xs body acc).
Proof.
  intros Hbody. induction xs as [|x xs IH]; intros acc; simpl.
  - apply preserves_ret.
  - apply preserves_bind; [apply Hbody|exact IH].
Qed.

Lemma preserves_str_field (v : option string) :
  preserves I (main.str_field (S := Process) v).
Proof. destruct v; [apply preserves_ret|apply preserves_raise]. Qed.

Lemma preserves_first (A : Type) (xs : list A) :
  preserves I (main.first (S := Process) xs).
Proof. destruct xs; [apply preserves_raise|apply preserves_ret]. Qed.

Lemma preserves_score_pair (method : string) (acc : list F64.float)
    (pair : main.VectorPair) :
  preserves I (main.score_pair method acc pair).
Proof.
  unfold main.score_pair.
  destruct (negb _); [apply preserves_raise|].
  apply preserves_bind; [|intros; apply preserves_ret].
  destruct (String.eqb method "cosine"); [apply preserves_lift|].
  destruct (String.eqb method "dot"); [apply preserves_lift|apply preserves_raise].
Qed.

Lemma preserves_fallback_row (acc row : list F64.float) :
  preserves I (main.fallback_row acc row).
Proof.
  unfold main.fallback_row.
  destruct (negb _); [apply preserves_raise|apply preserves_ret].
Qed.

Lemma preserves_onnx_scores (w : World) (sess : InferenceSession)
    (request : main.RankRequest) :
  preserves I (main.onnx_scores w sess request).
Proof.
  unfold main.onnx_scores.
  repeat (apply preserves_bind; intros);
    auto using preserves_lift, preserves_first.
Qed.

(** The handlers, given what [read_clock], [get_model] and [get_ranker]
    keep. *)
Hypothesis clock_ok : forall w, preserves I (read_clock w).

Lemma preserves_score_pairs (w : World) (request : main.ScoreRequest) :
  preserves I (main.score_pairs w request).
Proof.
  unfold main.score_pairs, utils.time_ms.
  apply preserves_bind; [apply clock_ok|intros start_time].
  apply preserves_try_except; [|intros [c d|e]; apply preserves_raise].
  apply preserves_bind;
    [apply preserves_for_each; intros; apply preserves_score_pair|intros].
  apply preserves_bind; [apply clock_ok|intros; apply preserves_ret].
Qed.

Lemma preserves_health_check (w : World) :
  preserves I (utils.get_model w) -> preserves I (main.health_check w).
Proof.
  intros Hmodel. unfold main.health_check.
  apply preserves_try_except; [|intros; apply preserves_ret].
  apply preserves_bind; [exact Hmodel|intros; apply preserves_ret].
Qed.

Lemma preserves_embed_texts (w : World) (encode : main.Encode)
    (request : main.EmbedRequest) :
  preserves I (utils.get_model w) ->
  preserves I (main.embed_texts w encode request).
Proof.
  intros Hmodel. unfold main.embed_texts, utils.time_ms.
  apply preserves_bind; [apply clock_ok|intros start_time].
  apply preserves_try_except; [|intros; apply preserves_raise].
  apply preserves_bind; [exact Hmodel|intros model].
  apply preserves_bind; [apply preserves_lift|intros vectors].
  apply preserves_bind; [apply clock_ok|intros; apply preserves_ret].
Qed.

Lemma preserves_rank_candidates (w : World) (request : main.RankRequest) :
  preserves I (main.get_ranker w) ->
  preserves I (main.rank_candidates w request).
Proof.
  intros Hranker. unfold main.rank_candidates, utils.time_ms.
  apply preserves_bind; [apply clock_ok|intros start_time].
  apply preserves_try_except; [|intros [c d|e]; apply preserves_raise].
  apply preserves_bind; [exact Hranker|intros r].
  apply preserves_bind.
  - destruct (main.is_onnx (fst r)), (snd r);
      try apply preserves_onnx_scores;
      apply preserves_for_each; intros; apply preserves_fallback_row.
  - intros. apply preserves_bind; [apply clock_ok|intros].
    apply preserves_bind; [apply preserves_str_field|intros; apply preserves_ret].
Qed.

Lemma preserves_ranker_health (w : World) :
  preserves I (main.get_ranker w) -> preserves I (main.ranker_health w).
Proof.
  intros Hranker. unfold main.ranker_health.
  apply preserves_try_except; [|intros; apply preserves_ret].
  apply preserves_bind; [exact Hranker|intros].
  apply preserves_bind; [apply preserves_str_field|intros; apply preserves_ret].
Qed.

(** A property that the clock, [get_model] and [get_ranker] keep is kept by
    every request. *)
Lemma preserves_handle :
  (forall w, preserves I (utils.get_model w)) ->
  (forall w, preserves I (main.get_ranker w)) ->
  forall (c : Call) (p : Process), I p -> I (handle c p).
Proof.
  intros Hmodel Hranker [w enc [|r|r|r|]] p H; unfold handle; simpl.
  - now apply preserves_health_check.
  - now apply preserves_embed_texts.
  - now apply preserves_score_pairs.
  - now apply preserves_rank_candidates.
  - now apply preserves_ranker_health.
Qed.

Lemma preserves_handle_all :
  (forall w, preserves I (utils.get_model w)) ->
  (forall w, preserves I (main.get_ranker w)) ->
  forall (calls : list Call) (p : Process), I p -> I (handle_all calls p).
Proof.
  intros Hmodel Hranker calls. unfold handle_all.
  induction calls as [|c calls IH]; intros p H; simpl; [exact H|].
  apply IH. now apply preserves_handle.
Qed.

End Preservation.

(** ** The two caches *)

Section Caches.

Import Service.

Lemma get_model_cached (w : World) (p : Process) (m : SentenceTransformer) :
  _model p = Some m -> utils.get_model w p = (Return m, p).
Proof.
  intros Hm. unfold utils.get_model, bind, get. simpl. now rewrite Hm.
Qed.

(** The first call of [get_model], by the outcome of the load. *)
Lemma get_model_first (w : World) (p : Process) :
  _model p = None ->
  match new_SentenceTransformer w utils.default_model_name with
  | inl e =>
      exists p', utils.get_model w p = (Raise (Other e), p')
                 /\ _model p' = None
                 /\ _ranker_model p' = _ranker_model p
                 /\ _ranker_session p' = _ranker_session p
  | inr m =>
      exists p', utils.get_model w p = (Return m, p')
                 /\ _model p' = Some m
                 /\ _ranker_model p' = _ranker_model p
                 /\ _ranker_session p' = _ranker_session p
  end.
Proof.
  intros Hnone. unfold utils.get_model, bind, get, print, emit, modify, lift,
    set_model, ret.
  destruct p as [m rm rs c t]. simpl in *. subst m.
  destruct (new_SentenceTransformer w utils.default_model_name) as [e|m];
    simpl; eexists; (split; [reflexivity|]); simpl; auto.
Qed.

Lemma get_model_clock (w : World) (p : Process) (n : nat) :
  fst (utils.get_model w
         {| _model := _model p; _ranker_model := _ranker_model p;
            _ranker_session := _ranker_session p;
            clock_reads := n; trace := trace p |})
  = fst (utils.get_model w p).
Proof.
  unfold utils.get_model, bind, get, print, emit, modify, lift, set_model, ret.
  destruct p as [[m|] rm rs c t]; simpl; [reflexivity|].
  destruct (new_SentenceTransformer w utils.default_model_name); reflexivity.
Qed.

Lemma get_model_keeps_model (w : World) (m : SentenceTransformer) :
  preserves (fun p => _model p = Some m) (utils.get_model w).
Proof. intros p H. now rewrite (get_model_cached w p H). Qed.

(** [get_model] leaves the ranker cache alone. *)
Lemma get_model_keeps_ranker (w : World) (p : Process) :
  _ranker_model (snd (utils.get_model w p)) = _ranker_model p
  /\ _ranker_session (snd (utils.get_model w p)) = _ranker_session p.
Proof.
  destruct (_model p) as [m|] eqn:Hm.
  - now rewrite (get_model_cached w p Hm).
  - pose proof (get_model_first w p Hm) as H.
    destruct (new_SentenceTransformer w utils.default_model_name);
      destruct H as (p' & -> & _ & H1 & H2); now split.
Qed.

(** [get_ranker] leaves the encoder cache alone. *)
Lemma get_ranker_keeps_model (w : World) (p : Process) :
  _model (snd (main.get_ranker w p)) = _model p.
Proof.
  unfold main.get_ranker, bind, get, ret, try_except, emit, print,
    set_ranker_model, set_ranker_session, modify, lift.
  destruct p as [m [k|] rs c t]; simpl; [reflexivity|].
  destruct (import_onnxruntime w); simpl; [reflexivity|].
  destruct (os_path_exists w main.model_path); simpl; [|reflexivity].
  destruct (new_InferenceSession w main.model_path); reflexivity.
Qed.

(** The ranker cache has one of its three shapes after [get_ranker], whatever
    the world, when it had one before. *)
Lemma get_ranker_keeps_wf (w : World) : preserves ranker_wf (main.get_ranker w).
Proof.
  intros p H.
  unfold main.get_ranker, bind, get, ret, try_except, emit, print,
    set_ranker_model, set_ranker_session, modify, lift.
  destruct p as [m rm rs c t]. unfold ranker_wf in *. simpl in *.
  destruct H as [[-> ->]|[[-> ->]|[-> [s ->]]]]; simpl; auto.
  - destruct (import_onnxruntime w); simpl; auto.
    destruct (os_path_exists w main.model_path); simpl; auto.
    destruct (new_InferenceSession w main.model_path) as [e|s]; simpl; auto.
    right. right. split; [reflexivity|now exists s].
  - right. right. split; [reflexivity|now exists s].
Qed.

Lemma get_model_keeps_wf (w : World) : preserves ranker_wf (utils.get_model w).
Proof.
  intros p H. destruct (get_model_keeps_ranker w p) as [H1 H2].
  unfold ranker_wf in *. now rewrite H1, H2.
Qed.

Lemma reachable_ranker_wf (calls : list Call) :
  ranker_wf (handle_all calls fresh).
Proof.
  apply preserves_handle_all.
  - intros w p H. exact H.
  - apply get_model_keeps_wf.
  - apply get_ranker_keeps_wf.
  - left. now split.
Qed.

(** With a kind cached, a rank request that succeeds reports that kind. *)
Lemma rank_reports_cached_kind (w : World) (request : main.RankRequest)
    (p : Process) (k : string) (resp : main.RankResponse.t) :
  _ranker_model p = Some k ->
  fst (main.rank_candidates w request p) = Return resp ->
  main.RankResponse.model resp = k.
Proof.
  intros Hk. unfold main.rank_candidates, bind, utils.time_ms, read_clock,
    try_except.
  set (p1 := {| _model := _model p; _ranker_model := _ranker_model p;
                _ranker_session := _ranker_session p;
                clock_reads := S (clock_reads p); trace := trace p |}).
  rewrite (get_ranker_cached w p1 (k := k)) by exact Hk. simpl.
  match goal with
  | |- context [let (_, _) := ?m p1 in _] =>
      destruct (m p1) as [[scores|[c d|e]] p2]
  end; simpl; try discriminate.
  intros H. injection H as <-. reflexivity.
Qed.

(** Every request leaves a filled ranker cache as it was. *)
Lemma handle_all_keeps_cache (calls : list Call) (k : string)
    (sess : option InferenceSession) (p : Process) :
  Spec.cached k sess p -> Spec.cached k sess (handle_all calls p).
Proof.
  apply (preserves_handle_all (I := Spec.cached k sess)).
  - intros w q H. exact H.
  - intros w q H. exact (keeps_get_model w H).
  - intros w q H. exact (keeps_get_ranker w H).
Qed.

End Caches.

Section CacheTheorems.

Import Service.

Lemma get_ranker_fills_cache (w : World) (p : Process) :
  exists k sess p',
    main.get_ranker w p = (Return (Some k, sess), p') /\ Spec.cached k sess p'.
Proof.
  unfold main.get_ranker, bind, get, ret, try_except, emit, print,
    set_ranker_model, set_ranker_session, modify, lift, Spec.cached.
  destruct p as [m [k|] rs c t]; simpl.
  - eexists _, _, _. split; [reflexivity|now split].
  - destruct (import_onnxruntime w); simpl.
    + eexists _, _, _. split; [reflexivity|now split].
    + destruct (os_path_exists w main.model_path); simpl.
      * destruct (new_InferenceSession w main.model_path); simpl;
          eexists _, _, _; (split; [reflexivity|now split]).
      * eexists _, _, _. split; [reflexivity|now split].
Qed.

(** The [model] of a rank response is the kind [get_ranker] gives. *)
Lemma rank_reports_kind (w : World) (request : main.RankRequest)
    (p : Process) (resp : main.RankResponse.t) :
  fst (main.rank_candidates w request p) = Return resp ->
  exists sess,
    fst (main.get_ranker w p) = Return (Some (main.RankResponse.model resp), sess).
Proof.
  rewrite <- (get_ranker_clock w p (S (clock_reads p))).
  unfold main.rank_candidates, bind, utils.time_ms, read_clock, try_except.
  set (p1 := {| _model := _model p; _ranker_model := _ranker_model p;
                _ranker_session := _ranker_session p;
                clock_reads := S (clock_reads p); trace := trace p |}).
  destruct (get_ranker_fills_cache w p1) as (k & sess & p2 & Hrun & _).
  rewrite Hrun. simpl.
  match goal with
  | |- context [let (_, _) := ?m p2 in _] =>
      destruct (m p2) as [[scores|[c d|e]] p3]
  end; simpl; try discriminate.
  intros H. injection H as <-. now exists sess.
Qed.

End CacheTheorems.

(** X1: once the sentence encoder is in the cache it is never loaded again:
    after any sequence of requests, in any world, [get_model] returns that
    same encoder without touching the process, and the health check answers
    ok with its name. *)
Theorem encoder_is_loaded_once (p : Process) (m : SentenceTransformer) :
  _model p = Some m ->
  forall (calls : list Service.Call) (w : World),
    utils.get_model w (Service.handle_all calls p)
    = (Return m, Service.handle_all calls p)
    /\ fst (main.health_check w (Service.handle_all calls p))
       = Return {| main.HealthResponse.ok := true;
                   main.HealthResponse.model :=
                     match model_name m with
                     | Some name => name
                     | None => utils.default_model_name
                     end;
                   main.HealthResponse.ready := true |}.
Proof.
  intros Hm calls w.
  assert (H : _model (Service.handle_all calls p) = Some m).
  { apply (preserves_handle_all (I := fun q => _model q = Some m)).
    - intros w' q Hq. exact Hq.
    - intros w'. apply get_model_keeps_model.
    - intros w' q Hq. now rewrite get_ranker_keeps_model.
    - exact Hm. }
  split; [exact (get_model_cached w _ H)|].
  unfold main.health_check, try_except, bind.
  now rewrite (get_model_cached w _ H).
Qed.

Lemma encoder_is_loaded_once_witness :
  _model (snd (main.health_check Examples.world_with_model fresh))
  = Some Examples.encoder
  /\ fst (utils.get_model Samples.world_without_encoder
            (Service.handle_all
               [ {| Service.world := Samples.world_without_encoder;
                    Service.encode := Samples.encode;
                    Service.request := Service.Embed Samples.embed_request |};
                 {| Service.world := Examples.world_without_model;
                    Service.encode := Samples.encode;
                    Service.request := Service.Rank Examples.rank_request |} ]
               (snd (main.health_check Examples.world_with_model fresh))))
     = Return Examples.encoder.
Proof.
  split; [reflexivity|].
  rewrite (proj1 (encoder_is_loaded_once
                    (snd (main.health_check Examples.world_with_model fresh))
                    (m := Examples.encoder) eq_refl _
                    Samples.world_without_encoder)).
  reflexivity.
Defined.

(** X2: a failed load of the sentence encoder is not remembered.  The call
    raises the library's exception and leaves the cache empty, so the next
    call tries again, and caches the encoder when the load then succeeds. *)
Theorem encoder_load_is_retried
    (w1 w2 : World) (p : Process) (e : PyError) (m : SentenceTransformer) :
  _model p = None ->
  new_SentenceTransformer w1 utils.default_model_name = inl e ->
  new_SentenceTransformer w2 utils.default_model_name = inr m ->
  fst (utils.get_model w1 p) = Raise (Other e)
  /\ _model (snd (utils.get_model w1 p)) = None
  /\ fst (utils.get_model w2 (snd (utils.get_model w1 p))) = Return m
  /\ _model (snd (utils.get_model w2 (snd (utils.get_model w1 p)))) = Some m.
Proof.
  intros Hnone H1 H2.
  pose proof (get_model_first w1 p Hnone) as Hfirst. rewrite H1 in Hfirst.
  destruct Hfirst as (p1 & Hrun1 & Hm1 & _).
  rewrite Hrun1. simpl.
  pose proof (get_model_first w2 p1 Hm1) as Hsecond. rewrite H2 in Hsecond.
  destruct Hsecond as (p2 & Hrun2 & Hm2 & _).
  rewrite Hrun2. simpl. auto.
Qed.

Lemma encoder_load_is_retried_witness :
  _model fresh = None
  /\ fst (utils.get_model Samples.world_without_encoder fresh)
     = Raise (Other (mkError "OSError"
                       "Cannot load paraphrase-multilingual-MiniLM-L12-v2"))
  /\ fst (utils.get_model Examples.world_with_model
            (snd (utils.get_model Samples.world_without_encoder fresh)))
     = Return Examples.encoder.
Proof.
  split; [reflexivity|].
  destruct (encoder_load_is_retried Samples.world_without_encoder
              Examples.world_with_model fresh eq_refl eq_refl eq_refl)
    as (H1 & _ & H2 & _).
  split; [exact H1|exact H2].
Defined.

(** X3: the health check answers ok exactly when the encoder is in the cache
    afterwards; a check that answers "error" leaves the cache empty, as it
    found it. *)
Theorem health_check_tells_the_cache (w : World) (p : Process) :
  exists resp p',
    main.health_check w p = (Return resp, p')
    /\ (main.HealthResponse.ok resp = true <-> _model p' <> None)
    /\ (main.HealthResponse.ok resp = false ->
        _model p = None /\ _model p' = None).
Proof.
  unfold main.health_check, try_except, bind.
  destruct (_model p) as [m|] eqn:Hm.
  - rewrite (get_model_cached w p Hm). simpl.
    eexists _, _. split; [reflexivity|]. simpl. rewrite Hm.
    split; [split; [discriminate|reflexivity]|discriminate].
  - pose proof (get_model_first w p Hm) as H.
    destruct (new_SentenceTransformer w utils.default_model_name) as [e|m];
      destruct H as (p' & -> & Hm' & _); simpl;
      eexists _, _; (split; [reflexivity|]); simpl; rewrite Hm'.
    + split; [split; [discriminate|intros H; now elim H]|auto].
    + split; [split; [discriminate|reflexivity]|discriminate].
Qed.

(** X4: the ranker health check decides the ranker.  The kind it reports is
    the kind every later rank request that succeeds reports, after any
    sequence of requests and in any world: a model file that appears after the
    first health check is never used by the process. *)
Theorem ranker_health_fixes_the_kind (w : World) (p : Process) :
  exists k p1,
    main.ranker_health w p
    = (Return {| main.RankerHealthResponse.ok := true;
                 main.RankerHealthResponse.model := k;
                 main.RankerHealthResponse.dimsExpected := 4 |}, p1)
    /\ forall (calls : list Service.Call) (w' : World)
              (request : main.RankRequest) (resp : main.RankResponse.t),
         fst (main.rank_candidates w' request (Service.handle_all calls p1))
         = Return resp ->
         main.RankResponse.model resp = k.
Proof.
  destruct (get_ranker_fills_cache w p) as (k & sess & p1 & Hrun & Hcached).
  exists k, p1. split.
  - unfold main.ranker_health, try_except, bind. rewrite Hrun. reflexivity.
  - intros calls w' request resp Hresp.
    destruct (handle_all_keeps_cache calls Hcached) as [Hk _].
    exact (rank_reports_cached_kind w' request _ Hk Hresp).
Qed.

(** X5: in a process started fresh the ranker cache is always empty, or
    "fallback" without a session, or "onnx" with a session, whatever requests
    were served in whatever worlds; and a rank response always names "onnx"
    or "fallback" as its model. *)
Theorem ranker_cache_is_well_formed
    (calls : list Service.Call) (w : World) (request : main.RankRequest)
    (resp : main.RankResponse.t) :
  Service.ranker_wf (Service.handle_all calls fresh)
  /\ (fst (main.rank_candidates w request (Service.handle_all calls fresh))
      = Return resp ->
      main.RankResponse.model resp = "onnx"
      \/ main.RankResponse.model resp = "fallback").
Proof.
  pose proof (reachable_ranker_wf calls) as Hwf.
  split; [exact Hwf|]. intros Hresp.
  destruct (rank_reports_kind w request _ Hresp) as [sess Hkind].
  destruct (get_ranker_total w (Service.handle_all calls fresh))
    as (k & s & p' & Hrun & Hk).
  rewrite Hrun in Hkind. simpl in Hkind. injection Hkind as <- _.
  destruct Hk as [Hk|[Hk|Hk]]; auto.
  destruct Hwf as [[H _]|[[H _]|[H _]]]; rewrite H in Hk;
    [discriminate| |]; injection Hk as <-; auto.
Qed.

(** X6: each operation touches its own cache only.  The health check and the
    embedding leave the ranker cache as it is; ranking and the ranker health
    check leave the encoder cache as it is; scoring leaves both, and the
    trace. *)
Theorem operations_keep_to_their_cache (c : Service.Call) (p : Process) :
  match Service.request c with
  | Service.Health | Service.Embed _ =>
      _ranker_model (Service.handle c p) = _ranker_model p
      /\ _ranker_session (Service.handle c p) = _ranker_session p
  | Service.Rank _ | Service.RankerHealth =>
      _model (Service.handle c p) = _model p
  | Service.Score _ => Service.same_but_clock p (Service.handle c p)
  end.
Proof.
  destruct c as [w enc [|r|r|r|]]; unfold Service.handle; simpl.
  - apply (preserves_health_check
             (I := fun q => _ranker_model q = _ranker_model p
                            /\ _ranker_session q = _ranker_session p)).
    + intros q [H1 H2]. destruct (get_model_keeps_ranker w q) as [-> ->].
      now split.
    + now split.
  - apply (preserves_embed_texts
             (I := fun q => _ranker_model q = _ranker_model p
                            /\ _ranker_session q = _ranker_session p)).
    + intros w' q H. exact H.
    + intros q [H1 H2]. destruct (get_model_keeps_ranker w q) as [-> ->].
      now split.
    + now split.
  - apply (preserves_score_pairs (I := Service.same_but_clock p)).
    + intros w' q H. exact H.
    + repeat split.
  - apply (preserves_rank_candidates (I := fun q => _model q = _model p)).
    + intros w' q H. exact H.
    + intros q H. now rewrite get_ranker_keeps_model.
    + reflexivity.
  - apply (preserves_ranker_health (I := fun q => _model q = _model p)).
    + intros q H. now rewrite get_ranker_keeps_model.
    + reflexivity.
Qed.

(** X7: whatever goes wrong while embedding, the loading of the encoder
    included, comes out as the server fault "Embedding generation failed:
    ..." with the library's message; when nothing goes wrong the response
    carries the encoder's vectors as they are, the length of the first one as
    [dims] (0 when there is none) and the encoder's name. *)
Theorem embed_texts_outcomes
    (w : World) (encode : main.Encode) (request : main.EmbedRequest)
    (p : Process) :
  match fst (utils.get_model w p) with
  | Raise e =>
      fst (main.embed_texts w encode request p)
      = Raise (HTTPException 500 ("Embedding generation failed: " ++ str e))
  | Return model =>
      match encode model (main.texts request) (main.normalize request) with
      | inl e =>
          fst (main.embed_texts w encode request p)
          = Raise (HTTPException 500
                     ("Embedding generation failed: " ++ exc_str e))
      | inr vectors =>
          exists t,
            fst (main.embed_texts w encode request p)
            = Return {| main.EmbedResponse.vectors := vectors;
                        main.EmbedResponse.dims :=
                          match vectors with
                          | v :: _ => Z.of_nat (List.length v)
                          | [] => 0%Z
                          end;
                        main.EmbedResponse.model :=
                          match model_name model with
                          | Some name => name
                          | None => utils.default_model_name
                          end;
                        main.EmbedResponse.took_ms := t |}
      end
  end.
Proof.
  rewrite <- (get_model_clock w p (S (clock_reads p))).
  unfold main.embed_texts, bind, utils.time_ms, read_clock, try_except, lift.
  set (p1 := {| _model := _model p; _ranker_model := _ranker_model p;
                _ranker_session := _ranker_session p;
                clock_reads := S (clock_reads p); trace := trace p |}).
  destruct (utils.get_model w p1) as [[model|e] p2]; simpl; [|reflexivity].
  destruct (encode model (main.texts request) (main.normalize request))
    as [e|vectors]; simpl; [reflexivity|].
  eexists. reflexivity.
Qed.

(** ** Scoring, pair by pair *)

Section ScoreLoop.

Lemma for_each_app (St A B : Type) (xs ys : list A) (body : B -> A -> M St B)
    (acc : B) (s : St) :
  for_each (xs ++ ys) body acc s
  = bind (for_each xs body acc) (for_each ys body) s.
Proof.
  revert acc s. induction xs as [|x xs IH]; intros acc s; simpl.
  - unfold bind, ret. reflexivity.
  - unfold bind. destruct (body acc x s) as [[b|e] s1].
    + rewrite IH. unfold bind. reflexivity.
    + reflexivity.
Qed.

(** The loop body depends on the pair and the method only: it raises, or it
    appends one score. *)
Lemma score_pair_pure (method : string) (pair : main.VectorPair) :
  exists r : result F64.float,
    forall (acc : list F64.float) (p : Process),
      main.score_pair method acc pair p
      = (match r with
         | Return s => Return (acc ++ [s])
         | Raise e => Raise e
         end, p).
Proof.
  unfold main.score_pair, bind, lift, raise, ret.
  destruct (negb _).
  - exists (Raise (HTTPException 400 "Vector dimensions must match")).
    reflexivity.
  - destruct (String.eqb method "cosine").
    + exists (utils.cosine_similarity (main.user_vec pair) (main.item_vec pair)).
      intros acc p. now destruct (utils.cosine_similarity _ _).
    + destruct (String.eqb method "dot").
      * exists (utils.dot_product (main.user_vec pair) (main.item_vec pair)).
        intros acc p. now destruct (utils.dot_product _ _).
      * exists (Raise (HTTPException 400 "Invalid method. Use 'cosine' or 'dot'")).
        reflexivity.
Qed.

Lemma score_loop_pure (method : string) (pairs : list main.VectorPair) :
  exists r : result (list F64.float),
    forall (acc : list F64.float) (p : Process),
      for_each pairs (main.score_pair method) acc p
      = (match r with
         | Return scores => Return (acc ++ scores)
         | Raise e => Raise e
         end, p).
Proof.
  induction pairs as [|pair pairs [r IH]].
  - exists (Return []). intros acc p. simpl. unfold ret. now rewrite app_nil_r.
  - destruct (score_pair_pure method pair) as [[s|e] Hbody].
    + destruct r as [scores|e].
      * exists (Return (s :: scores)). intros acc p. simpl. unfold bind.
        rewrite Hbody, IH. now rewrite <- app_assoc.
      * exists (Raise e). intros acc p. simpl. unfold bind.
        now rewrite Hbody, IH.
    + exists (Raise e). intros acc p. simpl. unfold bind. now rewrite Hbody.
Qed.

(** [score_pairs] in terms of the outcome of its loop. *)
Lemma score_pairs_by_loop (w : World) (request : main.ScoreRequest)
    (p : Process) (r : result (list F64.float)) :
  (forall acc q,
     for_each (main.pairs request) (main.score_pair (main.method request)) acc q
     = (match r with
        | Return scores => Return (acc ++ scores)
        | Raise e => Raise e
        end, q)) ->
  fst (main.score_pairs w request p)
  = match r with
    | Return scores =>
        Return {| main.ScoreResponse.scores := scores;
                  main.ScoreResponse.took_ms :=
                    (now_ms w (S (clock_reads p)) - now_ms w (clock_reads p))%Z |}
    | Raise (HTTPException c d) => Raise (HTTPException c d)
    | Raise (Other e) =>
        Raise (HTTPException 500 ("Scoring failed: " ++ exc_str e))
    end
  /\ clock_reads (snd (main.score_pairs w request p))
     = match r with
       | Return _ => (clock_reads p + 2)%nat
       | Raise _ => (clock_reads p + 1)%nat
       end.
Proof.
  intros Hloop.
  unfold main.score_pairs, bind, utils.time_ms, read_clock, try_except.
  rewrite Hloop. destruct r as [scores|[c d|e]]; simpl; split;
    try reflexivity; lia.
Qed.

End ScoreLoop.

(** X8: a score request reads the clock and nothing else moves: a request
    that is answered has read it twice and its [took_ms] is the second
    reading minus the first; a request that is rejected has read it once. *)
Theorem score_pairs_reads_the_clock
    (w : World) (request : main.ScoreRequest) (p : Process) :
  (forall resp,
     fst (main.score_pairs w request p) = Return resp ->
     main.ScoreResponse.took_ms resp
     = (now_ms w (S (clock_reads p)) - now_ms w (clock_reads p))%Z
     /\ clock_reads (snd (main.score_pairs w request p))
        = (clock_reads p + 2)%nat)
  /\ (forall e,
        fst (main.score_pairs w request p) = Raise e ->
        clock_reads (snd (main.score_pairs w request p))
        = (clock_reads p + 1)%nat).
Proof.
  destruct (score_loop_pure (main.method request) (main.pairs request))
    as [r Hloop].
  destruct (score_pairs_by_loop w request p r Hloop) as [Hrun Hclock].
  rewrite Hrun, Hclock. split.
  - intros resp H. destruct r as [scores|[c d|e]]; try discriminate.
    injection H as <-. now split.
  - intros e H. destruct r as [scores|[c d|e']]; try discriminate; reflexivity.
Qed.

(** X9: scoring goes pair by pair.  When two batches are each answered, the
    batch made of the one followed by the other is answered with the scores
    of the one followed by the scores of the other; when the first batch is
    rejected, so is the longer batch, with the same error. *)
Theorem score_batches_compose
    (w w1 w2 : World) (p p1 p2 : Process) (method : string)
    (pairs1 pairs2 : list main.VectorPair) :
  (forall resp1 resp2,
     fst (main.score_pairs w1 {| main.pairs := pairs1; main.method := method |} p1)
     = Return resp1 ->
     fst (main.score_pairs w2 {| main.pairs := pairs2; main.method := method |} p2)
     = Return resp2 ->
     exists resp,
       fst (main.score_pairs w
              {| main.pairs := pairs1 ++ pairs2; main.method := method |} p)
       = Return resp
       /\ main.ScoreResponse.scores resp
          = main.ScoreResponse.scores resp1 ++ main.ScoreResponse.scores resp2)
  /\ (forall e,
        fst (main.score_pairs w1
               {| main.pairs := pairs1; main.method := method |} p1)
        = Raise e ->
        fst (main.score_pairs w
               {| main.pairs := pairs1 ++ pairs2; main.method := method |} p)
        = Raise e).
Proof.
  destruct (score_loop_pure method pairs1) as [r1 H1].
  destruct (score_loop_pure method pairs2) as [r2 H2].
  set (r := match r1 with
            | Return s1 =>
                match r2 with
                | Return s2 => Return (s1 ++ s2)
                | Raise e => Raise e
                end
            | Raise e => Raise e
            end).
  assert (H12 : forall acc q,
             for_each (pairs1 ++ pairs2) (main.score_pair method) acc q
             = (match r with
                | Return scores => Return (acc ++ scores)
                | Raise e => Raise e
                end, q)).
  { intros acc q. rewrite for_each_app. unfold bind. rewrite H1.
    subst r. destruct r1 as [s1|e1]; [|reflexivity].
    rewrite H2. destruct r2 as [s2|e2]; [|reflexivity].
    now rewrite app_assoc. }
  destruct (score_pairs_by_loop w1
              {| main.pairs := pairs1; main.method := method |} p1 r1 H1)
    as [Hrun1 _].
  destruct (score_pairs_by_loop w2
              {| main.pairs := pairs2; main.method := method |} p2 r2 H2)
    as [Hrun2 _].
  destruct (score_pairs_by_loop w
              {| main.pairs := pairs1 ++ pairs2; main.method := method |}
              p r H12) as [Hrun _].
  rewrite Hrun1, Hrun2, Hrun. subst r. split.
  - intros resp1 resp2 Ha Hb.
    destruct r1 as [s1|[c d|e]]; try discriminate.
    destruct r2 as [s2|[c d|e]]; try discriminate.
    injection Ha as <-. injection Hb as <-.
    eexists. split; reflexivity.
  - intros e Ha. destruct r1 as [s1|[c d|e1]]; try discriminate; exact Ha.
Qed.

Lemma score_batches_compose_witness :
  exists resp,
    fst (main.score_pairs Examples.world_without_model
           {| main.pairs := main.pairs Examples.cosine_request
                            ++ main.pairs Examples.cosine_request;
              main.method := "cosine" |} fresh) = Return resp
    /\ main.ScoreResponse.scores resp = [F64.lit 10 10; F64.lit 10 10].
Proof.
  assert (Hrun : fst (main.score_pairs Examples.world_without_model
                        {| main.pairs := main.pairs Examples.cosine_request;
                           main.method := "cosine" |} fresh)
                 = Return {| main.ScoreResponse.scores := [F64.lit 10 10];
                             main.ScoreResponse.took_ms := 1 |}).
  { vm_compute. reflexivity. }
  destruct (proj1 (score_batches_compose Examples.world_without_model
                     Examples.world_without_model Examples.world_without_model
                     fresh fresh fresh "cosine"
                     (main.pairs Examples.cosine_request)
                     (main.pairs Examples.cosine_request))
              _ _ Hrun Hrun) as (resp & Hresp & Hcat).
  exists resp. split; [exact Hresp|]. exact Hcat.
Defined.

(** [cosine_similarity] and [dot_product] return a number exactly when
    the two vectors have one length; on vectors of different lengths both
    raise numpy's [ValueError] about the shapes, the norms having been
    computed in vain. *)
Theorem vector_functions_need_one_length (a b : list F64.float) :
  (List.length a = List.length b ->
   (exists s, utils.cosine_similarity a b = Return s)
   /\ (exists s, utils.dot_product a b = Return s))
  /\ (List.length a <> List.length b ->
      utils.cosine_similarity a b
      = Raise (np.shape_error (List.length a) (List.length b))
      /\ utils.dot_product a b
         = Raise (np.shape_error (List.length a) (List.length b))).
Proof.
  split.
  - intros H. split; eexists.
    + now apply cosine_similarity_returns.
    + now apply dot_product_returns.
  - intros H. apply Nat.eqb_neq in H.
    unfold utils.cosine_similarity, utils.dot_product, np.dot.
    rewrite !divide_length, H. now split.
Qed.

Lemma vector_functions_need_one_length_witness :
  List.length [F64.of_Z 1; F64.of_Z 2] <> List.length [F64.of_Z 3]
  /\ utils.cosine_similarity [F64.of_Z 1; F64.of_Z 2] [F64.of_Z 3]
     = Raise (ValueError
                "shapes (2,) and (1,) not aligned: 2 (dim 0) != 1 (dim 0)").
Proof.
  assert (H : List.length [F64.of_Z 1; F64.of_Z 2] <> List.length [F64.of_Z 3])
    by discriminate.
  split; [exact H|].
  exact (proj1 (proj2 (vector_functions_need_one_length
                         [F64.of_Z 1; F64.of_Z 2] [F64.of_Z 3]) H)).
Defined.

(** ** The training script, step by step *)

Section Frames.

Import train_ranker.

Lemma map_seq_nth (A B : Type) (f : A -> B) (l : list A) (d : A) :
  map (fun r => f (nth r l d)) (seq 0 (List.length l)) = map f l.
Proof.
  induction l as [|x l IH]; [reflexivity|].
  simpl. f_equal. rewrite <- seq_shift, map_map. exact IH.
Qed.

Lemma nth_nil_default (A : Type) (i : nat) (d : A) : nth i [] d = d.
Proof. now destruct i. Qed.

(** The cell of a column, read back by the number of its row. *)
Lemma nth_column (rows : list (list F64.float)) (i r : nat) :
  nth r (map (fun row => nth i row F64.nan) rows) F64.nan
  = nth i (nth r rows []) F64.nan.
Proof.
  rewrite <- (nth_nil_default i F64.nan) at 1.
  exact (map_nth (fun row => nth i row F64.nan) rows [] r).
Qed.

Lemma fillna0_clean (df : DataFrame) :
  isnull_any df = false -> fillna0 df = df.
Proof.
  destruct df as [cols rs]. unfold isnull_any, fillna0. simpl. intros H.
  f_equal. induction rs as [|row rs IH]; [reflexivity|].
  simpl in *. apply orb_false_iff in H as [Hrow Hrs].
  rewrite (IH Hrs). f_equal.
  clear IH Hrs. induction row as [|x row IH]; [reflexivity|].
  simpl in *. apply orb_false_iff in Hrow as [Hx Hrow].
  rewrite (IH Hrow), Hx. reflexivity.
Qed.

Lemma fillna0_idempotent (df : DataFrame) : fillna0 (fillna0 df) = fillna0 df.
Proof. apply fillna0_clean, fillna0_no_null. Qed.

Lemma fillna0_cells (df : DataFrame) :
  Forall2 (Forall2 (fun x y => y = if F64.is_nan x then F64.zero else x))
          (rows df) (rows (fillna0 df)).
Proof.
  unfold fillna0. simpl. induction (rows df) as [|row rs IH]; constructor.
  - induction row as [|x row IHrow]; constructor; [reflexivity|exact IHrow].
  - exact IH.
Qed.

End Frames.

Section LoadStep.

Import train_ranker.

Variable Booster : Type.
Variable w : World Booster.

(** The load step on a table that has every required column. *)
Lemma load_data_returns (csv_path : string) (df : DataFrame) :
  read_csv w csv_path = inr df ->
  missing_cols df = [] ->
  exists labels,
    forall t,
      load_data w csv_path t
      = (Return (fillna0 df),
         t ++ [Print ("Loading data from: " ++ csv_path); ReadCsv csv_path;
               PrintLoaded (List.length (rows df)); PrintPositive labels]
           ++ (if isnull_any df
               then [Print "Warning: Found missing values, filling with 0"]
               else [])).
Proof.
  intros Hread Hnone.
  destruct (has_column_index df "label") as [i Hi].
  { apply no_missing_has_column; [exact Hnone|now left]. }
  exists (map (fun row => nth i row F64.nan) (rows df)). intros t.
  unfold load_data, bind, print, emit, modify, lift, column.
  rewrite Hread. simpl. rewrite Hnone, Hi. simpl.
  destruct (isnull_any df) eqn:Hnull; simpl.
  - rewrite <- !app_assoc. reflexivity.
  - rewrite (fillna0_clean df Hnull), <- !app_assoc. reflexivity.
Qed.

End LoadStep.

(** X10: the load step changes missing cells and nothing else.  On a table
    with every required column it returns the table in which each NaN cell is
    0 and every other cell is as it was read, the same table when none is
    missing; it prints the warning exactly when a cell is missing. *)
Theorem load_data_fills_missing_cells_only
    (Booster : Type) (w : train_ranker.World Booster) (csv_path : string)
    (df : train_ranker.DataFrame) :
  train_ranker.read_csv w csv_path = inr df ->
  train_ranker.missing_cols df = [] ->
  exists t,
    train_ranker.load_data w csv_path [] = (Return (train_ranker.fillna0 df), t)
    /\ (In (train_ranker.Print "Warning: Found missing values, filling with 0") t
        <-> train_ranker.isnull_any df = true)
    /\ train_ranker.columns (train_ranker.fillna0 df) = train_ranker.columns df
    /\ Forall2 (Forall2 (fun x y => y = if F64.is_nan x then F64.zero else x))
               (train_ranker.rows df)
               (train_ranker.rows (train_ranker.fillna0 df))
    /\ (train_ranker.isnull_any df = false -> train_ranker.fillna0 df = df).
Proof.
  intros Hread Hnone.
  destruct (load_data_returns w csv_path Hread Hnone) as [labels Hrun].
  eexists. split; [apply Hrun|].
  split; [|split; [reflexivity|split; [apply fillna0_cells|apply fillna0_clean]]].
  simpl. destruct (train_ranker.isnull_any df); simpl.
  - split; [reflexivity|]. intros _. auto 10.
  - split; [|discriminate].
    intros [H|[H|[H|[H|[]]]]]; discriminate.
Qed.

Lemma load_data_fills_missing_cells_only_witness :
  train_ranker.read_csv Examples.training_world "train.csv"
  = inr Examples.with_gap
  /\ train_ranker.missing_cols Examples.with_gap = []
  /\ fst (train_ranker.load_data Examples.training_world "train.csv" [])
     = Return (train_ranker.fillna0 Examples.with_gap).
Proof.
  split; [reflexivity|]. split; [reflexivity|].
  destruct (load_data_fills_missing_cells_only Examples.training_world
              "train.csv" (df := Examples.with_gap) eq_refl eq_refl)
    as (t & Hrun & _).
  now rewrite Hrun.
Defined.

Section PrepareStep.

Import train_ranker.

(** The four feature columns of a table that misses none, by position. *)
Lemma feature_indexes (df : DataFrame) :
  missing_cols df = [] ->
  exists il i0 i1 i2 i3,
    index_of "label" (columns df) = Some il
    /\ index_of "f0_sim" (columns df) = Some i0
    /\ index_of "f1_recency" (columns df) = Some i1
    /\ index_of "f2_trust" (columns df) = Some i2
    /\ index_of "f3_geo" (columns df) = Some i3.
Proof.
  intros Hnone.
  assert (H : forall col, In col required_cols ->
                          exists i, index_of col (columns df) = Some i).
  { intros col Hin. apply has_column_index.
    now apply no_missing_has_column. }
  destruct (H "label") as [il Hl]; [simpl; auto|].
  destruct (H "f0_sim") as [i0 H0]; [simpl; auto|].
  destruct (H "f1_recency") as [i1 H1]; [simpl; auto|].
  destruct (H "f2_trust") as [i2 H2]; [simpl; auto|].
  destruct (H "f3_geo") as [i3 H3]; [simpl; auto 6|].
  now exists il, i0, i1, i2, i3.
Qed.

(** The feature matrix, row by row. *)
Lemma matrix_of_columns (rs : list (list F64.float)) (i0 i1 i2 i3 : nat) :
  map (fun r =>
         map (fun c => nth r c F64.nan)
             [map (fun row => nth i0 row F64.nan) rs;
              map (fun row => nth i1 row F64.nan) rs;
              map (fun row => nth i2 row F64.nan) rs;
              map (fun row => nth i3 row F64.nan) rs])
      (seq 0 (List.length rs))
  = map (fun row => [nth i0 row F64.nan; nth i1 row F64.nan;
                     nth i2 row F64.nan; nth i3 row F64.nan]) rs.
Proof.
  rewrite <- (map_seq_nth
                (fun row => [nth i0 row F64.nan; nth i1 row F64.nan;
                             nth i2 row F64.nan; nth i3 row F64.nan]) rs []).
  apply map_ext. intros r. simpl. now rewrite !nth_column.
Qed.

End PrepareStep.


Section PrepareReturns.

Import train_ranker.

Lemma prepare_features_returns (df : DataFrame) :
  missing_cols df = [] ->
  exists il i0 i1 i2 i3,
    index_of "label" (columns df) = Some il
    /\ index_of "f0_sim" (columns df) = Some i0
    /\ index_of "f1_recency" (columns df) = Some i1
    /\ index_of "f2_trust" (columns df) = Some i2
    /\ index_of "f3_geo" (columns df) = Some i3
    /\ forall t,
         prepare_features df t
         = match rows df with
           | [] =>
               (Raise (ValueError
                  "zero-size array to reduction operation minimum which has no identity"),
                t ++ [PrintShape 0 4; Print "Feature ranges:"])
           | _ :: _ =>
               (Return
                  (map (fun row => [nth i0 row F64.nan; nth i1 row F64.nan;
                                    nth i2 row F64.nan; nth i3 row F64.nan])
                       (rows df),
                   map (fun row => nth il row F64.nan) (rows df)),
                t ++ [PrintShape (List.length (rows df)) 4;
                      Print "Feature ranges:";
                      PrintRange "f0_sim"
                        (map (fun row => nth i0 row F64.nan) (rows df));
                      PrintRange "f1_recency"
                        (map (fun row => nth i1 row F64.nan) (rows df));
                      PrintRange "f2_trust"
                        (map (fun row => nth i2 row F64.nan) (rows df));
                      PrintRange "f3_geo"
                        (map (fun row => nth i3 row F64.nan) (rows df))])
           end.
Proof.
  intros Hnone.
  destruct (feature_indexes df Hnone) as (il & i0 & i1 & i2 & i3 & Hl & H0 & H1 & H2 & H3).
  exists il, i0, i1, i2, i3. repeat (split; [assumption|]). intros t.
  unfold prepare_features, feature_cols, column. simpl.
  unfold bind. rewrite H0, H1, H2, H3, Hl. unfold ret at 1 2 3 4 5 6 7 8 9.
  cbn [app]. rewrite matrix_of_columns, length_map.
  destruct (rows df) as [|row rs].
  - unfold emit, print, modify, print_range, bind, ret, raise. simpl.
    rewrite <- !app_assoc. reflexivity.
  - unfold emit, print, modify, print_range, bind, ret. simpl.
    rewrite !map_map. simpl. rewrite <- !app_assoc. reflexivity.
Qed.

End PrepareReturns.

(** X11: the feature matrix is taken by column name.  For a table with every
    required column and at least one row, [prepare_features] returns one row
    of four cells per row of the table, the cells of [f0_sim], [f1_recency],
    [f2_trust] and [f3_geo] in this order wherever these columns stand in the
    file, and the cells of [label] as the target. *)
Theorem prepare_features_selects_by_name (df : train_ranker.DataFrame) :
  train_ranker.missing_cols df = [] ->
  train_ranker.rows df <> [] ->
  exists il i0 i1 i2 i3,
    train_ranker.index_of "label" (train_ranker.columns df) = Some il
    /\ train_ranker.index_of "f0_sim" (train_ranker.columns df) = Some i0
    /\ train_ranker.index_of "f1_recency" (train_ranker.columns df) = Some i1
    /\ train_ranker.index_of "f2_trust" (train_ranker.columns df) = Some i2
    /\ train_ranker.index_of "f3_geo" (train_ranker.columns df) = Some i3
    /\ forall t,
         fst (train_ranker.prepare_features df t)
         = Return
             (map (fun row => [nth i0 row F64.nan; nth i1 row F64.nan;
                               nth i2 row F64.nan; nth i3 row F64.nan])
                  (train_ranker.rows df),
              map (fun row => nth il row F64.nan) (train_ranker.rows df)).
Proof.
  intros Hnone Hrows.
  destruct (prepare_features_returns df Hnone)
    as (il & i0 & i1 & i2 & i3 & Hl & H0 & H1 & H2 & H3 & Hrun).
  exists il, i0, i1, i2, i3. repeat (split; [assumption|]).
  intros t. rewrite Hrun.
  destruct (train_ranker.rows df); [contradiction|reflexivity].
Qed.

Lemma prepare_features_selects_by_name_witness :
  train_ranker.missing_cols Examples.with_gap = []
  /\ train_ranker.rows Examples.with_gap <> []
  /\ fst (train_ranker.prepare_features Examples.with_gap [])
     = Return
         ([[F64.lit 9 10; F64.nan; F64.lit 5 10; F64.lit 3 10];
           [F64.lit 2 10; F64.lit 4 10; F64.lit 5 10; F64.lit 1 10]],
          [F64.of_Z 1; F64.of_Z 0]).
Proof.
  assert (Hrows : train_ranker.rows Examples.with_gap <> []) by discriminate.
  split; [reflexivity|]. split; [exact Hrows|].
  destruct (prepare_features_selects_by_name Examples.with_gap eq_refl Hrows)
    as (il & i0 & i1 & i2 & i3 & Hl & H0 & H1 & H2 & H3 & Hrun).
  rewrite Hrun.
  injection Hl as <-. injection H0 as <-. injection H1 as <-.
  injection H2 as <-. injection H3 as <-.
  reflexivity.
Defined.

(** X12: a table that cannot be read, or that has every column and no row,
    ends the script with status 1 before any training.  The empty table
    passes the load step and fails in the preparation, where the minimum of
    an empty column is asked for. *)
Theorem unusable_table_exits_with_1
    (Booster : Type) (w : train_ranker.World Booster) (args : train_ranker.Args) :
  (forall e,
     train_ranker.read_csv w (train_ranker.csv args) = inl e ->
     train_ranker.run w args
     = (1%Z,
        [train_ranker.Print ("Loading data from: " ++ train_ranker.csv args);
         train_ranker.ReadCsv (train_ranker.csv args);
         train_ranker.Print (train_ranker.training_failed (exc_str e))]))
  /\ (forall df,
        train_ranker.read_csv w (train_ranker.csv args) = inr df ->
        train_ranker.missing_cols df = [] ->
        train_ranker.rows df = [] ->
        exists labels,
          train_ranker.run w args
          = (1%Z,
             [train_ranker.Print ("Loading data from: " ++ train_ranker.csv args);
              train_ranker.ReadCsv (train_ranker.csv args);
              train_ranker.PrintLoaded 0;
              train_ranker.PrintPositive labels;
              train_ranker.PrintShape 0 4;
              train_ranker.Print "Feature ranges:";
              train_ranker.Print
                (train_ranker.training_failed
                   "zero-size array to reduction operation minimum which has no identity")])).
Proof.
  split.
  - intros e Hread.
    unfold train_ranker.run, train_ranker.main, train_ranker.load_data,
      try_except, bind, train_ranker.print, train_ranker.emit, modify, lift.
    rewrite Hread. reflexivity.
  - intros df Hread Hnone Hrows.
    destruct (load_data_returns w (train_ranker.csv args) Hread Hnone)
      as [labels Hload].
    destruct (prepare_features_returns (train_ranker.fillna0 df) Hnone)
      as (il & i0 & i1 & i2 & i3 & _ & _ & _ & _ & _ & Hprep).
    exists labels.
    unfold train_ranker.run, train_ranker.main, try_except, bind.
    rewrite Hload, Hprep.
    unfold train_ranker.fillna0, train_ranker.isnull_any. simpl.
    rewrite Hrows. reflexivity.
Qed.

Lemma unusable_table_exits_with_1_witness :
  fst (train_ranker.run
         (Samples.training_world_of (inr Samples.header_only) (inr tt) (inr tt))
         Examples.training_args) = 1%Z.
Proof.
  destruct (proj2 (unusable_table_exits_with_1
                     (Samples.training_world_of (inr Samples.header_only)
                        (inr tt) (inr tt))
                     Examples.training_args)
              Samples.header_only eq_refl eq_refl eq_refl) as [labels Hrun].
  now rewrite Hrun.
Defined.

(** X13: on a table with every column and at least one row the script trains
    on the features and labels of the table with its missing cells filled,
    exports only a model that training returned, and exits with 0 exactly
    when both succeed: a failure of the training ends the run with status 1
    and no export, a failure of the export ends it with status 1 and no line
    of completion. *)
Theorem training_run_outcomes
    (Booster : Type) (w : train_ranker.World Booster)
    (args : train_ranker.Args) (df : train_ranker.DataFrame) :
  train_ranker.read_csv w (train_ranker.csv args) = inr df ->
  train_ranker.missing_cols df = [] ->
  train_ranker.rows df <> [] ->
  exists X y t0,
    (forall t,
       fst (train_ranker.prepare_features (train_ranker.fillna0 df) t)
       = Return (X, y))
    /\ train_ranker.run w args
       = match train_ranker.lgb_train w X y (train_ranker.test_size args)
                 (train_ranker.random_state args) with
         | inl e =>
             (1%Z,
              t0 ++ [train_ranker.TrainModel;
                     train_ranker.Print
                       (train_ranker.training_failed (exc_str e))])
         | inr model =>
             match train_ranker.convert_and_save w model
                     (train_ranker.out args) with
             | inl e =>
                 (1%Z,
                  t0 ++ [train_ranker.TrainModel;
                         train_ranker.ExportOnnx (train_ranker.out args);
                         train_ranker.Print
                           (train_ranker.training_failed (exc_str e))])
             | inr _ =>
                 (0%Z,
                  t0 ++ [train_ranker.TrainModel;
                         train_ranker.ExportOnnx (train_ranker.out args);
                         train_ranker.Print train_ranker.training_completed;
                         train_ranker.Print
                           ("Model saved to: " ++ train_ranker.out args)])
             end
         end.
Proof.
  intros Hread Hnone Hrows.
  destruct (load_data_returns w (train_ranker.csv args) Hread Hnone)
    as [labels Hload].
  destruct (prepare_features_returns (train_ranker.fillna0 df) Hnone)
    as (il & i0 & i1 & i2 & i3 & _ & _ & _ & _ & _ & Hprep).
  assert (Hfilled : exists row rs,
             train_ranker.rows (train_ranker.fillna0 df) = row :: rs).
  { unfold train_ranker.fillna0. simpl.
    destruct (train_ranker.rows df) as [|row rs]; [contradiction|].
    simpl. eauto. }
  destruct Hfilled as (row & rs & Hfilled).
  rewrite Hfilled in Hprep. rewrite <- Hfilled in Hprep.
  clear Hfilled row rs.
  pose proof (Hload []) as Hl0.
  exists (map (fun row => [nth i0 row F64.nan; nth i1 row F64.nan;
                           nth i2 row F64.nan; nth i3 row F64.nan])
              (train_ranker.rows (train_ranker.fillna0 df))),
         (map (fun row => nth il row F64.nan)
              (train_ranker.rows (train_ranker.fillna0 df))),
         (snd (train_ranker.prepare_features (train_ranker.fillna0 df)
                 (snd (train_ranker.load_data w (train_ranker.csv args) [])))).
  split.
  - intros t. rewrite Hprep. reflexivity.
  - unfold train_ranker.run, train_ranker.main, try_except, bind.
    rewrite Hl0. cbn [snd fst]. rewrite Hprep. cbn [snd fst].
    unfold train_ranker.train_model, train_ranker.export_to_onnx, bind,
      train_ranker.emit, train_ranker.print, modify, lift.
    cbn [fst snd of_lib].
    destruct (train_ranker.lgb_train w _ _ _ _) as [e|model]; cbn [of_lib].
    + unfold train_ranker.print, train_ranker.emit, modify, ret, bind.
      cbn [fst snd]. rewrite <- !app_assoc. reflexivity.
    + destruct (train_ranker.convert_and_save w model _) as [e|[]];
        cbn [of_lib];
        unfold train_ranker.print, train_ranker.emit, modify, ret, bind;
        cbn [fst snd]; rewrite <- !app_assoc; reflexivity.
Qed.

Lemma training_run_outcomes_witness :
  fst (train_ranker.run
         (Samples.training_world_of (inr Examples.with_gap)
            (inl (mkError "LightGBMError" "bad labels")) (inr tt))
         Examples.training_args) = 1%Z.
Proof.
  assert (Hrows : train_ranker.rows Examples.with_gap <> []) by discriminate.
  destruct (training_run_outcomes
              (Samples.training_world_of (inr Examples.with_gap)
                 (inl (mkError "LightGBMError" "bad labels")) (inr tt))
              Examples.training_args (df := Examples.with_gap)
              eq_refl eq_refl Hrows) as (X & y & t0 & _ & Hrun).
  now rewrite Hrun.
Defined.

(** ** NaN in, NaN out *)

Section NotANumber.

Lemma sum_floats_nan_acc (c : F64.float) (items : list F64.float) :
  builtins.sum_floats F64.nan c items = F64.nan.
Proof.
  revert c. induction items as [|x items IH]; intros c; simpl.
  - now destruct (F64.is_finite_nonzero c).
  - apply IH.
Qed.

Lemma sum_floats_nan_item (f c : F64.float) (items : list F64.float) :
  In F64.nan items -> builtins.sum_floats f c items = F64.nan.
Proof.
  revert f c. induction items as [|x items IH]; intros f c Hin; [contradiction|].
  destruct Hin as [->|Hin].
  - cbn [builtins.sum_floats]. rewrite add_nan_r. apply sum_floats_nan_acc.
  - cbn [builtins.sum_floats]. now apply IH.
Qed.

Lemma sum_nan (items : list F64.float) :
  In F64.nan items -> builtins.sum items = F64.nan.
Proof.
  destruct items as [|x items]; [contradiction|]. intros [->|Hin].
  - unfold builtins.sum. rewrite add_nan_r. apply sum_floats_nan_acc.
  - unfold builtins.sum. now apply sum_floats_nan_item.
Qed.

Lemma div_nan_r (x : F64.float) : F64.div x F64.nan = F64.nan.
Proof. now destruct x. Qed.

Lemma inner_fold_nan (l : list (F64.float * F64.float)) (acc : F64.float) :
  Exists (fun xy => fst xy = F64.nan \/ snd xy = F64.nan) l ->
  fold_left (fun acc xy => F64.add acc (F64.mul (fst xy) (snd xy))) l acc
  = F64.nan.
Proof.
  intros Hex. revert acc. induction Hex as [xy l H|xy l _ IH]; intros acc.
  - cbn [fold_left].
    assert (Hp : F64.mul (fst xy) (snd xy) = F64.nan).
    { destruct H as [-> | ->]; [apply mul_nan_l|apply mul_nan_r]. }
    rewrite Hp, add_nan_r. apply fold_nan.
  - cbn [fold_left]. apply IH.
Qed.

Lemma combine_has_nan (a b : list F64.float) :
  List.length a = List.length b ->
  In F64.nan a \/ In F64.nan b ->
  Exists (fun xy => fst xy = F64.nan \/ snd xy = F64.nan) (combine a b).
Proof.
  revert b. induction a as [|x a IH]; intros [|y b] Hlen H; try discriminate.
  - destruct H as [[]|[]].
  - injection Hlen as Hlen. simpl.
    destruct H as [[->|H]|[->|H]].
    + left. now left.
    + right. apply IH; auto.
    + left. now right.
    + right. apply IH; auto.
Qed.

Lemma inner64_nan (a b : list F64.float) :
  List.length a = List.length b ->
  In F64.nan a \/ In F64.nan b ->
  np.inner64 a b = F64.nan.
Proof.
  intros Hlen H. unfold np.inner64, np.inner.
  apply inner_fold_nan. now apply combine_has_nan.
Qed.

(** A vector with a NaN has the norm NaN, and all its normalised elements
    are NaN. *)
Lemma divide_nan (a : list F64.float) :
  In F64.nan a ->
  np.divide a (np.linalg_norm a) = map (fun _ => F64.nan) a.
Proof.
  intros Hin. unfold np.linalg_norm.
  rewrite (inner64_nan a a eq_refl (or_introl Hin)).
  unfold np.divide. apply map_ext. intros x.
  change (F64.sqrt F64.nan) with F64.nan. apply div_nan_r.
Qed.

End NotANumber.

(** X14: the fallback ranker does not reject a row of four features that
    contains NaN: the row is accepted and its score is NaN. *)
Theorem nan_feature_is_scored_nan
    (acc row : list F64.float) (p : Process) :
  List.length row = 4%nat ->
  In F64.nan row ->
  main.linear_combination row = F64.nan
  /\ main.fallback_row acc row p = (Return (acc ++ [F64.nan]), p).
Proof.
  intros Hlen Hin.
  assert (Hscore : main.linear_combination row = F64.nan).
  { destruct row as [|f0 [|f1 [|f2 [|f3 [|? ?]]]]]; try discriminate.
    rewrite linear_combination_4. apply sum_nan.
    destruct Hin as [->|[->|[->|[->|[]]]]]; rewrite mul_nan_r; cbn [In]; auto. }
  split; [exact Hscore|].
  unfold main.fallback_row. rewrite Hlen. simpl. now rewrite Hscore.
Qed.

Lemma nan_feature_is_scored_nan_witness :
  List.length [Examples.half; F64.nan; Examples.half; Examples.half] = 4%nat
  /\ main.linear_combination
       [Examples.half; F64.nan; Examples.half; Examples.half] = F64.nan.
Proof.
  split; [reflexivity|].
  refine (proj1 (nan_feature_is_scored_nan []
                   [Examples.half; F64.nan; Examples.half; Examples.half]
                   fresh eq_refl _)).
  right. now left.
Defined.

(** X15: a NaN anywhere in either vector makes both similarity functions
    return NaN, for vectors of one length: the value is neither rejected nor
    skipped. *)
Theorem nan_element_gives_nan (a b : list F64.float) :
  List.length a = List.length b ->
  In F64.nan a \/ In F64.nan b ->
  utils.cosine_similarity a b = Return F64.nan
  /\ utils.dot_product a b = Return F64.nan.
Proof.
  intros Hlen Hin. split.
  - rewrite (cosine_similarity_returns a b Hlen). f_equal.
    apply inner64_nan; [now rewrite !divide_length|].
    destruct Hin as [Ha|Hb].
    + left. rewrite (divide_nan a Ha).
      apply in_map_iff. now exists F64.nan.
    + right. rewrite (divide_nan b Hb).
      apply in_map_iff. now exists F64.nan.
  - rewrite (dot_product_returns a b Hlen). f_equal.
    now apply inner64_nan.
Qed.

Lemma nan_element_gives_nan_witness :
  List.length [F64.of_Z 1; F64.nan] = List.length [F64.of_Z 2; F64.of_Z 3]
  /\ utils.dot_product [F64.of_Z 1; F64.nan] [F64.of_Z 2; F64.of_Z 3]
     = Return F64.nan.
Proof.
  split; [reflexivity|].
  refine (proj2 (nan_element_gives_nan [F64.of_Z 1; F64.nan]
                   [F64.of_Z 2; F64.of_Z 3] eq_refl _)).
  left. right. now left.
Defined.

(** ** The export, step by step *)

Section Dirname.

Import train_ranker.

Example dirname_of_models_path : dirname "models/ranker.onnx" = "models".
Proof. reflexivity. Qed.

Example dirname_of_nested_path : dirname "/tmp/out//ranker.onnx" = "/tmp/out".
Proof. reflexivity. Qed.

Example dirname_of_root_file : dirname "/ranker.onnx" = "/".
Proof. reflexivity. Qed.

Lemma upto_last_slash_without (p : string) :
  has_slash p = false -> upto_last_slash p = EmptyString.
Proof.
  induction p as [|c rest IH]; [reflexivity|].
  simpl. intros H. apply orb_false_iff in H as [Hc Hrest].
  now rewrite Hrest, Hc.
Qed.

Lemma upto_last_slash_with (p : string) :
  has_slash p = true -> upto_last_slash p <> EmptyString.
Proof.
  destruct p as [|c rest]; [discriminate|].
  simpl. intros H.
  destruct (has_slash rest); [discriminate|].
  rewrite orb_false_r in H. rewrite H. discriminate.
Qed.

Lemma rstrip_slashes_empty (p : string) :
  rstrip_slashes p = EmptyString -> all_slashes p = true.
Proof.
  induction p as [|c rest IH]; [reflexivity|].
  simpl. destruct (rstrip_slashes rest); [|discriminate].
  destruct (is_slash c); [|discriminate].
  intros _. now rewrite IH.
Qed.

Lemma dirname_empty_iff (p : string) :
  dirname p = EmptyString <-> has_slash p = false.
Proof.
  split.
  - intros H. destruct (has_slash p) eqn:Hs; [|reflexivity].
    exfalso. pose proof (upto_last_slash_with p Hs) as Hhead.
    unfold dirname in H.
    destruct (upto_last_slash p) as [|c rest] eqn:E; [now apply Hhead|].
    destruct (all_slashes (String c rest)) eqn:Hall; [discriminate|].
    apply rstrip_slashes_empty in H. congruence.
  - intros H. unfold dirname. now rewrite (upto_last_slash_without p H).
Qed.

End Dirname.

(** X16: of the steps of the export only the making of the directory, the
    conversion and the writing can fail it, each raising before "model saved"
    is printed.  Once the file is written the export returns whatever the
    check of the file does: a check that fails leaves one line of warning
    and no exception. *)
Theorem export_fails_only_before_the_file_is_written
    (Booster OnnxModel : Type)
    (libs : train_ranker.ExportLibs Booster OnnxModel)
    (model : Booster) (output_path : string) :
  let exporting := train_ranker.exporting output_path in
  match train_ranker.makedirs libs (train_ranker.dirname output_path) with
  | inl e =>
      train_ranker.export_to_onnx_steps libs model output_path []
      = (Raise (Other e), [exporting])
  | inr _ =>
      match train_ranker.convert_lightgbm libs model with
      | inl e =>
          train_ranker.export_to_onnx_steps libs model output_path []
          = (Raise (Other e), [exporting])
      | inr onnx_model =>
          match train_ranker.write_model libs output_path onnx_model with
          | inl e =>
              train_ranker.export_to_onnx_steps libs model output_path []
              = (Raise (Other e), [exporting])
          | inr _ =>
              exists lines,
                train_ranker.export_to_onnx_steps libs model output_path []
                = (Return tt,
                   exporting :: train_ranker.model_saved output_path :: lines)
                /\ forall e,
                     train_ranker.check_session libs output_path = inl e ->
                     lines = [train_ranker.verification_failed (exc_str e)]
          end
      end
  end.
Proof.
  intros exporting. subst exporting.
  unfold train_ranker.export_to_onnx_steps, bind, train_ranker.say, modify,
    lift, try_except.
  cbn [fst snd app].
  destruct (train_ranker.makedirs libs _) as [e|[]]; cbn [of_lib];
    [reflexivity|].
  destruct (train_ranker.convert_lightgbm libs model) as [e|onnx_model];
    cbn [of_lib]; [reflexivity|].
  destruct (train_ranker.write_model libs output_path onnx_model) as [e|[]];
    cbn [of_lib]; [reflexivity|].
  destruct (train_ranker.check_session libs output_path) as [e|session];
    cbn [of_lib].
  - eexists. split; [reflexivity|].
    intros e' H. injection H as <-. reflexivity.
  - destruct (train_ranker.input_shape session) as [e|i]; cbn [of_lib].
    + eexists. split; [reflexivity|]. intros e' H. discriminate.
    + destruct (train_ranker.output_shape session) as [e|o]; cbn [of_lib];
        (eexists; split; [reflexivity|]; intros e' H; discriminate).
Qed.

(** X17: [dirname] is empty exactly for a path without a slash, so for an
    output path that is a bare file name the export asks for the directory
    of the empty path to be made; when that fails, as it does with
    [os.makedirs], the export raises before anything is converted. *)
Theorem export_of_bare_file_name
    (Booster OnnxModel : Type)
    (libs : train_ranker.ExportLibs Booster OnnxModel)
    (model : Booster) (output_path : string) :
  (train_ranker.dirname output_path = EmptyString
   <-> train_ranker.has_slash output_path = false)
  /\ (train_ranker.has_slash output_path = false ->
      forall e,
        train_ranker.makedirs libs EmptyString = inl e ->
        fst (train_ranker.export_to_onnx_steps libs model output_path [])
        = Raise (Other e)).
Proof.
  split; [apply dirname_empty_iff|].
  intros Hbare e Hmk.
  apply dirname_empty_iff in Hbare.
  unfold train_ranker.export_to_onnx_steps, bind, train_ranker.say, modify,
    lift, try_except.
  cbn [fst snd app]. rewrite Hbare, Hmk. reflexivity.
Qed.

Lemma export_of_bare_file_name_witness :
  train_ranker.has_slash "ranker.onnx" = false
  /\ fst (train_ranker.export_to_onnx_steps Samples.export_libs tt
            "ranker.onnx" [])
     = Raise (Other (mkError "FileNotFoundError"
                       "[Errno 2] No such file or directory: ''")).
Proof.
  split; [reflexivity|].
  exact (proj2 (export_of_bare_file_name Samples.export_libs tt "ranker.onnx")
           eq_refl _ eq_refl).
Defined.

Example export_without_onnxruntime :
  train_ranker.export_to_onnx_steps Samples.export_libs tt
    "models/ranker.onnx" []
  = (Return tt,
     [train_ranker.exporting "models/ranker.onnx";
      train_ranker.model_saved "models/ranker.onnx";
      train_ranker.verification_failed "No module named 'onnxruntime'"]).
Proof. reflexivity. Qed.
